(** * us_stock_mcp_server: the cache of daily price series

    A shallow embedding of [server.py]: the per-symbol CSV cache, the
    merge of a freshly fetched series into the cached one, the atomic
    write, and the two tool entry points.

    Conventions of the embedding.
    - The data directory [BASE_DATA_DIR] is a finite map from entry names
      to file texts; the file of a symbol is the entry [symbol ++ ".csv"],
      as [BASE_DATA_DIR / f"{symbol}.csv"] names it.
    - A frame is the list of its rows in order.  A row carries its date and
      the five columns the program keeps.  The numeric cells are never
      computed with, only moved between the provider, the frames and the
      files, so a cell is held as the text the CSV has for it.
    - A date is a calendar date (the daily bars of the provider, and the
      [Date] column of the files written here).
    - Python exceptions, the [stderr] stream, the clock and the file system
      are threaded through a small state-and-exception monad.
    - Calls into the libraries (the provider, the temporary file, the write
      of the CSV text, the rename) take their outcome from an environment
      record, so that each of them can succeed or raise. *)

From Stdlib Require Import Ascii String.
From stdpp Require Import gmap strings list sorting.

(** ** Dates *)

Module Dates.

Record Timestamp := mkTimestamp { year : nat; month : nat; day : nat }.

#[global] Instance Timestamp_eq_dec : EqDecision Timestamp.
Proof. solve_decision. Defined.

(** Chronological order, field by field. *)
Definition ts_lt (a b : Timestamp) : Prop :=
  year a < year b ∨
  (year a = year b ∧ (month a < month b ∨ (month a = month b ∧ day a < day b))).

Definition ts_le (a b : Timestamp) : Prop :=
  year a < year b ∨
  (year a = year b ∧ (month a < month b ∨ (month a = month b ∧ day a ≤ day b))).

#[global] Instance ts_lt_dec a b : Decision (ts_lt a b).
Proof. unfold ts_lt. apply _. Defined.

#[global] Instance ts_le_dec a b : Decision (ts_le a b).
Proof. unfold ts_le. apply _. Defined.

End Dates.
Export Dates.

Local Open Scope string_scope.
Local Open Scope list_scope.
Local Open Scope nat_scope.

(** ** Frames *)

Module Frame.

(** The text of one numeric cell. *)
Definition cell := string.

Record Row := mkRow {
  Date : Timestamp;
  Open : cell;
  High : cell;
  Low : cell;
  Close : cell;
  Volume : cell
}.

#[global] Instance Row_eq_dec : EqDecision Row.
Proof. solve_decision. Defined.

Definition DataFrame := list Row.

(** [df.index]: the dates, in row order. *)
Definition index (df : DataFrame) : list Timestamp := map Date df.

(** [pd.concat([df_old, df_new])]. *)
Definition pd_concat (df_old df_new : DataFrame) : DataFrame := df_old ++ df_new.

(** [idx.duplicated(keep='last')]: a label is marked when it occurs again
    further down. *)
Fixpoint duplicated_keep_last (idx : list Timestamp) : list bool :=
  match idx with
  | [] => []
  | d :: rest => bool_decide (d ∈ rest) :: duplicated_keep_last rest
  end.

(** [df[mask]]: the rows whose mark is [true]. *)
Fixpoint boolean_index (df : DataFrame) (mask : list bool) : DataFrame :=
  match df, mask with
  | r :: df', b :: mask' =>
      if b then r :: boolean_index df' mask' else boolean_index df' mask'
  | _, _ => []
  end.

(** [df[~df.index.duplicated(keep='last')]]. *)
Definition drop_duplicated (df : DataFrame) : DataFrame :=
  boolean_index df (map negb (duplicated_keep_last (index df))).

(** Descending order of rows by date. *)
Definition row_ge (r1 r2 : Row) : Prop := ts_le (Date r2) (Date r1).
Definition row_gt (r1 r2 : Row) : Prop := ts_lt (Date r2) (Date r1).

#[global] Instance row_ge_dec r1 r2 : Decision (row_ge r1 r2).
Proof. unfold row_ge. apply _. Defined.

#[global] Instance row_gt_dec r1 r2 : Decision (row_gt r1 r2).
Proof. unfold row_gt. apply _. Defined.

(** [df.sort_index(ascending=False)] and
    [df.sort_values(by='Date', ascending=False)].  The library does not
    promise an order among rows of equal date; nothing below depends on
    the order this sort gives them. *)
Definition sort_index (df : DataFrame) : DataFrame := merge_sort row_ge df.

(** Sorted by date, newest first; strictly so when no date repeats. *)
Definition descending (df : DataFrame) : Prop := StronglySorted row_ge df.
Definition strictly_descending (df : DataFrame) : Prop := StronglySorted row_gt df.

(** Lines 103-104 of [update_stock_data]. *)
Definition df_combined_of (df_old df_new : DataFrame) : DataFrame :=
  drop_duplicated (pd_concat df_old df_new).

(** The row a date ends up with under [keep='last']: its last occurrence. *)
Fixpoint last_with_date (d : Timestamp) (df : DataFrame) : option Row :=
  match df with
  | [] => None
  | r :: rest =>
      match last_with_date d rest with
      | Some r' => Some r'
      | None => if decide (Date r = d) then Some r else None
      end
  end.

End Frame.
Export Frame.

(** ** Python values that cross the model: exceptions and outcomes *)

Module Py.

(** A raised exception, with the text [str(e)] gives. *)
Inductive Exception := Exc (str : string).

Definition str (e : Exception) : string := match e with Exc s => s end.

(** What a call that may raise comes back with. *)
Inductive Outcome (A : Type) :=
  | Returned (a : A)
  | Raised (e : Exception).
Arguments Returned {A} a.
Arguments Raised {A} e.

Definition obind {A B} (o : Outcome A) (k : A → Outcome B) : Outcome B :=
  match o with
  | Returned a => k a
  | Raised e => Raised e
  end.

(** Every element through [f], left to right; the first raise wins. *)
Fixpoint map_outcome {A B} (f : A → Outcome B) (l : list A) : Outcome (list B) :=
  match l with
  | [] => Returned []
  | x :: l' =>
      obind (f x) (λ y, obind (map_outcome f l') (λ ys, Returned (y :: ys)))
  end.

(** ASCII letter case, as [str.upper], [str.lower] and [str.capitalize]
    act on it. *)
Definition upper_char (c : ascii) : ascii :=
  let n := nat_of_ascii c in
  if bool_decide (97 ≤ n ≤ 122) then ascii_of_nat (n - 32) else c.

Definition lower_char (c : ascii) : ascii :=
  let n := nat_of_ascii c in
  if bool_decide (65 ≤ n ≤ 90) then ascii_of_nat (n + 32) else c.

Fixpoint map_string (f : ascii → ascii) (s : string) : string :=
  match s with
  | EmptyString => EmptyString
  | String c s' => String (f c) (map_string f s')
  end.

Definition lower (s : string) : string := map_string lower_char s.

Definition capitalize (s : string) : string :=
  match s with
  | EmptyString => EmptyString
  | String c s' => String (upper_char c) (lower s')
  end.

(** [s.split(sep)] for a one-character separator. *)
Fixpoint split_on (sep : ascii) (s : string) : list string :=
  match s with
  | EmptyString => [EmptyString]
  | String c s' =>
      if decide (c = sep) then EmptyString :: split_on sep s'
      else match split_on sep s' with
           | [] => [String c EmptyString]
           | f :: fs => String c f :: fs
           end
  end.

(** [sep.join(l)]. *)
Fixpoint join (sep : string) (l : list string) : string :=
  match l with
  | [] => EmptyString
  | [s] => s
  | s :: l' => s +:+ sep +:+ join sep l'
  end.

End Py.
Export Py.

(** ** The CSV text of a frame *)

Module Csv.

Definition newline : string := String "010"%char EmptyString.

Definition digit_char (n : nat) : ascii :=
  match n with
  | 0 => "0" | 1 => "1" | 2 => "2" | 3 => "3" | 4 => "4"
  | 5 => "5" | 6 => "6" | 7 => "7" | 8 => "8" | _ => "9"
  end%char.

Definition digit_val (c : ascii) : option nat :=
  let n := nat_of_ascii c in
  if bool_decide (48 ≤ n ≤ 57) then Some (n - 48) else None.

Definition two_digits (n : nat) : string :=
  String (digit_char ((n / 10) `mod` 10)) (String (digit_char (n `mod` 10)) EmptyString).

Definition four_digits (n : nat) : string :=
  String (digit_char ((n / 1000) `mod` 10))
    (String (digit_char ((n / 100) `mod` 10)) (two_digits n)).

(** How the library writes a date column whose timestamps carry no time of
    day: [%Y-%m-%d]. *)
Definition strftime_date (d : Timestamp) : string :=
  four_digits (year d) +:+ "-" +:+ two_digits (month d) +:+ "-" +:+ two_digits (day d).

(** The shape YYYY-MM-DD: ten characters, digits around two dashes. *)
Definition is_digit (c : ascii) : bool := bool_decide (is_Some (digit_val c)).


Definition is_leap (y : nat) : bool :=
  bool_decide (y `mod` 4 = 0) && (negb (bool_decide (y `mod` 100 = 0)) || bool_decide (y `mod` 400 = 0)).

Definition days_in_month (y m : nat) : nat :=
  match m with
  | 2 => if is_leap y then 29 else 28
  | 4 | 6 | 9 | 11 => 30
  | _ => 31
  end.

(** A date of the calendar with a four-digit year. *)
Definition valid_date (d : Timestamp) : bool :=
  bool_decide (year d < 10 * 1000) && bool_decide (1 ≤ month d ≤ 12)
  && bool_decide (1 ≤ day d ≤ days_in_month (year d) (month d)).

Definition number_of (ds : list ascii) : option nat :=
  foldl (λ acc c, n ← acc; v ← digit_val c; Some (10 * n + v)) (Some 0) ds.

(** [pd.to_datetime] on one cell, for the form the cache files hold:
    YYYY-MM-DD naming a date of the calendar.  Any other text raises. *)
Definition to_datetime (s : string) : Outcome Timestamp :=
  match s with
  | String y1 (String y2 (String y3 (String y4 (String d1
      (String m1 (String m2 (String d2 (String a1 (String a2 EmptyString))))))))) =>
      match number_of [y1; y2; y3; y4], number_of [m1; m2], number_of [a1; a2] with
      | Some y, Some m, Some a =>
          let d := mkTimestamp y m a in
          if bool_decide (d1 = "-"%char) && bool_decide (d2 = "-"%char) && valid_date d
          then Returned d
          else Raised (Exc ("Unknown datetime string format, unable to parse: " +:+ s))
      | _, _, _ => Raised (Exc ("Unknown datetime string format, unable to parse: " +:+ s))
      end
  | _ => Raised (Exc ("Unknown datetime string format, unable to parse: " +:+ s))
  end.

Definition csv_header : string := "Date,Open,High,Low,Close,Volume".

Definition csv_line (r : Row) : string :=
  join "," [strftime_date (Date r); Open r; High r; Low r; Close r; Volume r].

(** [df.to_csv(path, index=False)] after [reset_index]: the header, then
    one line per row, each line ended by a newline. *)
Definition to_csv (df : DataFrame) : string :=
  String.concat "" (map (λ l, l +:+ newline) (csv_header :: map csv_line df)).

End Csv.
Export Csv.

(** ** Tables: what the CSV reader and the provider hand over *)

Module Tables.

(** Column labels and, per record, the cells under them, all text. *)
Record Table := mkTable { columns : list string; records : list (list cell) }.

Fixpoint label_pos (name : string) (cols : list string) : option nat :=
  match cols with
  | [] => None
  | c :: cols' => if decide (c = name) then Some 0 else S <$> label_pos name cols'
  end.

(** The cell of a record under a label; a record that is short of the
    label, or a frame without it, has the empty cell there (the library's
    NaN, written as the empty text). *)
Definition get_cell (cols : list string) (name : string) (rec : list cell) : cell :=
  match label_pos name cols with
  | Some i => nth i rec EmptyString
  | None => EmptyString
  end.

Definition row_of (cols : list string) (d : Timestamp) (rec : list cell) : Row :=
  mkRow d (get_cell cols "Open" rec) (get_cell cols "High" rec)
    (get_cell cols "Low" rec) (get_cell cols "Close" rec)
    (get_cell cols "Volume" rec).

(** [pd.read_csv(path)] on the text of the file: the first line names the
    columns, blank lines are skipped, a record longer than the header
    raises. *)
Definition read_csv (text : string) : Outcome Table :=
  match filter (λ l, l ≠ EmptyString) (split_on "010"%char text) with
  | [] => Raised (Exc "No columns to parse from file")
  | header :: lines =>
      let cols := split_on ","%char header in
      obind
        (map_outcome (λ l, let fields := split_on ","%char l in
                    if bool_decide (length fields ≤ length cols)
                    then Returned fields
                    else Raised (Exc "Error tokenizing data")) lines)
        (λ recs, Returned (mkTable cols recs))
  end.

(** The date column parsed, [pd.to_datetime(df['Date'])]: a frame without
    the column raises [KeyError], a cell that is no date raises. *)
Definition parse_dates (t : Table) : Outcome DataFrame :=
  match label_pos "Date" (columns t) with
  | None => Raised (Exc "'Date'")
  | Some _ =>
      map_outcome (λ rec, obind (to_datetime (get_cell (columns t) "Date" rec))
                     (λ d, Returned (row_of (columns t) d rec)))
           (records t)
  end.

(** What [ticker.history(start, end)] returns: rows indexed by date under
    the provider's own column labels. *)
Record Fetched := mkFetched {
  fetched_columns : list string;
  fetched_rows : list (Timestamp * list cell)
}.

(** [df.empty]: no row, or no column. *)
Definition empty (df : Fetched) : bool :=
  bool_decide (fetched_rows df = []) || bool_decide (fetched_columns df = []).

(** [df_new.columns = [col.capitalize() for col in df_new.columns]]. *)
Definition capitalize_columns (df : Fetched) : Fetched :=
  mkFetched (map capitalize (fetched_columns df)) (fetched_rows df).

Definition keep_columns : list string := ["Open"; "High"; "Low"; "Close"; "Volume"].

(** [df_new[keep_columns]]: [KeyError] when a label is missing.  (Among
    equal labels the first one is taken.) *)
Definition select_keep_columns (df : Fetched) : Outcome DataFrame :=
  match filter (λ c, c ∉ fetched_columns df) keep_columns with
  | [] => Returned (map (λ '(d, rec), row_of (fetched_columns df) d rec) (fetched_rows df))
  | missing => Raised (Exc ("[" +:+ join ", " missing +:+ "] not in index"))
  end.

End Tables.
Export Tables.

(** ** The world the server runs in *)

Module World.

Inductive PyVal :=
  | PStr (s : string)
  | PInt (n : Z)
  | PNone
  | PFrame (df : DataFrame)
  | PEmptyList.

#[global] Instance PyVal_eq_dec : EqDecision PyVal.
Proof. solve_decision. Defined.

(** The data directory, the error stream and the time slept so far. *)
Record World := mkWorld {
  files : gmap string string;
  stderr : list string;
  slept : nat
}.

(** What the libraries and the outside do in one call of a tool. *)
Record Env := mkEnv {
  (** [datetime.today().strftime("%Y-%m-%d")] *)
  today : string;
  (** [yf.Ticker(symbol).history(start=..., end=...)] *)
  history : string → string → string → Outcome Fetched;
  (** the name [NamedTemporaryFile] picks, and whether creating it raises *)
  temp_name : string;
  temp_create : option Exception;
  (** whether [to_csv] raises, and what it has left in the file by then *)
  csv_write : option (string * Exception);
  (** whether [shutil.move] raises *)
  move : option Exception
}.

(** State and exceptions. *)
Definition M (A : Type) : Type := World → Outcome A * World.

Definition ret {A} (a : A) : M A := λ w, (Returned a, w).

Definition bind {A B} (m : M A) (k : A → M B) : M B :=
  λ w, match m w with
       | (Returned a, w') => k a w'
       | (Raised e, w') => (Raised e, w')
       end.

Definition raise {A} (e : Exception) : M A := λ w, (Raised e, w).

(** [try: m  except Exception as e: handler e]. *)
Definition try_except {A} (m : M A) (handler : Exception → M A) : M A :=
  λ w, match m w with
       | (Returned a, w') => (Returned a, w')
       | (Raised e, w') => handler e w'
       end.

Definition lift {A} (o : Outcome A) : M A := λ w, (o, w).

(** [print(msg, file=sys.stderr)]. *)
Definition print_stderr (msg : string) : M unit :=
  λ w, (Returned (), mkWorld (files w) (stderr w ++ [msg]) (slept w)).

(** [time.sleep(n)]. *)
Definition sleep (n : nat) : M unit :=
  λ w, (Returned (), mkWorld (files w) (stderr w) (slept w + n)).

Definition get_files : M (gmap string string) := λ w, (Returned (files w), w).

Definition set_files (fs : gmap string string) : M unit :=
  λ w, (Returned (), mkWorld fs (stderr w) (slept w)).

End World.
Export World.

Declare Scope py_scope.
Delimit Scope py_scope with py.
Notation "x <- m ;; k" := (bind m (λ x, k))
  (at level 100, m at next level, right associativity) : py_scope.
Notation "m ;;; k" := (bind m (λ _, k))
  (at level 100, right associativity) : py_scope.

(** ** server.py *)

Module Server.

Local Open Scope py_scope.

(** [BASE_DATA_DIR / f"{symbol}.csv"], as an entry of the data directory. *)
Definition csv_path (symbol : string) : string := symbol +:+ ".csv".

(** [tempfile.NamedTemporaryFile(mode='w', delete=False, suffix='.csv',
    dir=BASE_DATA_DIR)]: a new empty entry, or a raise with nothing
    created. *)
Definition NamedTemporaryFile (env : Env) : M string :=
  match temp_create env with
  | Some e => raise e
  | None =>
      fs <- get_files ;;
      set_files (<[temp_name env := EmptyString]> fs) ;;;
      ret (temp_name env)
  end.

(** [df.to_csv(temp_path, index=False)]: the whole text is in the file, or
    the call raises with whatever it wrote until then. *)
Definition to_csv_file (env : Env) (df : DataFrame) (path : string) : M unit :=
  fs <- get_files ;;
  match csv_write env with
  | Some (partial, e) => set_files (<[path := partial]> fs) ;;; raise e
  | None => set_files (<[path := to_csv df]> fs)
  end.

(** [shutil.move(src, dst)] inside one directory: a rename, which puts the
    text of [src] under [dst] and removes [src], or raises and changes
    nothing. *)
Definition shutil_move (env : Env) (src dst : string) : M unit :=
  match move env with
  | Some e => raise e
  | None =>
      fs <- get_files ;;
      match fs !! src with
      | Some text => set_files (<[dst := text]> (delete src fs))
      | None => raise (Exc ("No such file or directory: " +:+ src))
      end
  end.

(** [path.exists()]. *)
Definition exists_ (path : string) : M bool :=
  fs <- get_files ;; ret (bool_decide (is_Some (fs !! path))).

(** [path.unlink()]. *)
Definition unlink (path : string) : M unit :=
  fs <- get_files ;; set_files (delete path fs).

(** Leaving the [with] block closes the handle of the temporary file and,
    with [delete=False], does nothing else. *)
Definition save_dataframe_to_csv (env : Env) (df : DataFrame) (file_path : string) : M unit :=
  try_except
    (temp_path <- NamedTemporaryFile env ;;
     try_except
       (to_csv_file env df temp_path ;;;
        shutil_move env temp_path file_path ;;;
        print_stderr ("Successfully saved data to " +:+ file_path))
       (λ e,
          b <- exists_ temp_path ;;
          (if b then unlink temp_path else ret ()) ;;;
          raise e))
    (λ e,
       print_stderr ("Error saving CSV file: " +:+ str e) ;;;
       raise e).

(** The text of a file, [None] when it does not exist. *)
Definition file_text (path : string) : M (option string) :=
  fs <- get_files ;; ret (fs !! path).

Definition read_local_stock_data (stock_code : string) : M (option DataFrame) :=
  try_except
    (let file_path := csv_path stock_code in
     text <- file_text file_path ;;
     match text with
     | None => ret None
     | Some text =>
         df <- lift (read_csv text) ;;
         df <- lift (parse_dates df) ;;
         let df := sort_index df in
         ret (Some df)
     end)
    (λ e,
       print_stderr ("Error reading CSV file: " +:+ str e) ;;;
       ret None).

Definition result (status message : string) : gmap string PyVal :=
  {[ "status" := PStr status; "message" := PStr message ]}.

Definition result_data (status message : string) (data : PyVal) : gmap string PyVal :=
  {[ "status" := PStr status; "message" := PStr message; "data" := data ]}.

(** In the row model [set_index('Date')] and [reset_index] change nothing:
    a row carries its date whether the date is the index or a column, and
    [parse_dates] stands for [pd.to_datetime] on either. *)
Definition update_stock_data (env : Env) (symbol start_date : string)
  : M (gmap string PyVal) :=
  try_except
    (print_stderr ("Starting to update stock data for " +:+ symbol +:+ "...") ;;;
     let end_date := today env in
     let file_path := csv_path symbol in
     print_stderr ("Downloading " +:+ symbol +:+ " data from " +:+ start_date
                   +:+ " to " +:+ end_date) ;;;
     df_new <- lift (history env symbol start_date end_date) ;;
     if empty df_new then
       ret (result "error" ("Unable to fetch data for " +:+ symbol))
     else
       let df_new := capitalize_columns df_new in
       df_new <- lift (select_keep_columns df_new) ;;
       text <- file_text file_path ;;
       df_combined <-
         match text with
         | Some text =>
             try_except
               (df_old <- lift (read_csv text) ;;
                df_old <- lift (parse_dates df_old) ;;
                ret (df_combined_of df_old df_new))
               (λ e,
                  print_stderr ("Error processing existing data: " +:+ str e) ;;;
                  ret df_new)
         | None => ret df_new
         end ;;
       let df_combined := sort_index df_combined in
       try_except
         (save_dataframe_to_csv env df_combined file_path ;;;
          ret (result "success" ("Successfully updated data for " +:+ symbol)))
         (λ e, ret (result "error" ("Error saving data: " +:+ str e))))
    (λ e,
       let error_msg := "Error updating data for " +:+ symbol +:+ ": " +:+ str e in
       print_stderr error_msg ;;;
       ret (result "error" error_msg)).

(** Building an argument model from the keywords of [args], for a model
    of string fields: a field must be given unless it has a default, and
    must be a string. *)
Definition validate_field (args : gmap string PyVal) (name : string)
    (default : option string) : M string :=
  match args !! name with
  | Some (PStr s) => ret s
  | Some _ => raise (Exc (name +:+ ": Input should be a valid string"))
  | None =>
      match default with
      | Some s => ret s
      | None => raise (Exc (name +:+ ": Field required"))
      end
  end.

Definition GetLocalStockDataArgs (args : gmap string PyVal) : M string :=
  validate_field args "symbol" None.

Definition UpdateStockDataArgs (args : gmap string PyVal) : M (string * string) :=
  symbol <- validate_field args "symbol" None ;;
  start_date <- validate_field args "start_date" (Some "2015-01-01") ;;
  ret (symbol, start_date).

Definition get_local_stock_data (args : gmap string PyVal) : M (gmap string PyVal) :=
  try_except
    (symbol <- GetLocalStockDataArgs args ;;
     data <- read_local_stock_data symbol ;;
     match data with
     | None =>
         ret (result_data "error" ("Data not found for symbol " +:+ symbol) PEmptyList)
     | Some data =>
         ret (result_data "success"
                ("Successfully retrieved historical data for " +:+ symbol) (PFrame data))
     end)
    (λ e, ret (result_data "error" ("Error retrieving data: " +:+ str e) PEmptyList)).

(** The resource [usstock://{symbol}/historical]. *)
Definition get_historical_data (symbol : string) : M (gmap string PyVal) :=
  try_except
    (data <- read_local_stock_data symbol ;;
     match data with
     | None =>
         ret (result_data "error" ("Data not found for symbol " +:+ symbol) PEmptyList)
     | Some data =>
         ret (result_data "success"
                ("Successfully retrieved historical data for " +:+ symbol) (PFrame data))
     end)
    (λ e, ret (result_data "error" ("Error retrieving data: " +:+ str e) PEmptyList)).

Definition update_stock_data_tool (env : Env) (args : gmap string PyVal)
  : M (gmap string PyVal) :=
  try_except
    (validated_args <- UpdateStockDataArgs args ;;
     let symbol := validated_args.1 in
     let start_date := validated_args.2 in
     result <- update_stock_data env symbol start_date ;;
     if bool_decide (result !! "status" = Some (PStr "error")) then ret result
     else
       sleep 5 ;;;
       ret result)
    (λ e, ret (result "error" ("Error updating data: " +:+ str e))).

End Server.
Export Server.

(** ** What the update writes, as a function of what it read and fetched *)

Module Merge.

(** The prior series as [update_stock_data] gets it: absent when there is
    no file, and also when the file does not parse (the [except] of lines
    105-107). *)
Definition prior_series (text : option string) : option DataFrame :=
  match text with
  | None => None
  | Some text =>
      match obind (read_csv text) parse_dates with
      | Returned df_old => Some df_old
      | Raised _ => None
      end
  end.

(** Lines 96-112: the combined frame, sorted. *)
Definition merge (old : option DataFrame) (new : DataFrame) : DataFrame :=
  sort_index
    match old with
    | Some df_old => df_combined_of df_old new
    | None => new
    end.

(** The fetched rows after lines 89-93, when the fetch is usable. *)
Definition normalized (fetched : Outcome Fetched) : Outcome (option DataFrame) :=
  obind fetched (λ df_new,
    if empty df_new then Returned None
    else obind (select_keep_columns (capitalize_columns df_new))
           (λ df, Returned (Some df))).

(** Whether the write goes through: the first library call of
    [save_dataframe_to_csv] that raises. *)
Definition save_fault (env : Env) : option Exception :=
  match temp_create env with
  | Some e => Some e
  | None =>
      match csv_write env with
      | Some (_, e) => Some e
      | None => move env
      end
  end.

(** A structured result of a tool: a status that is success or error, and
    a message. *)
Definition structured (d : gmap string PyVal) : Prop :=
  (d !! "status" = Some (PStr "success") ∨ d !! "status" = Some (PStr "error"))
  ∧ ∃ message, d !! "message" = Some (PStr message).


(** Whether a character occurs in a text. *)
Fixpoint has_char (c : ascii) (s : string) : bool :=
  match s with
  | EmptyString => false
  | String a s' => bool_decide (a = c) || has_char c s'
  end.

(** A cell that the CSV text holds as it is: no comma and no line break
    in it, as for the text of a number. *)
Definition clean_cell (s : cell) : bool :=
  negb (has_char ","%char s) && negb (has_char "010"%char s).

(** The fields of the line of a row. *)
Definition csv_fields (r : Row) : list string :=
  [strftime_date (Date r); Open r; High r; Low r; Close r; Volume r].

(** A row of clean cells under a date of the calendar. *)
Definition clean_row (r : Row) : bool :=
  valid_date (Date r) && clean_cell (Open r) && clean_cell (High r)
  && clean_cell (Low r) && clean_cell (Close r) && clean_cell (Volume r).

End Merge.
Export Merge.

(** ** Sample data *)

Module Samples.

Definition D1 := mkTimestamp 2024 1 2.
Definition D2 := mkTimestamp 2024 1 3.
Definition D3 := mkTimestamp 2024 1 4.
Definition D4 := mkTimestamp 2024 1 5.

Definition row1 := mkRow D1 "10.0" "11.0" "9.5" "10.5" "1000".
Definition row2 := mkRow D2 "10.5" "11.5" "10.0" "11.0" "1100".
Definition row3 := mkRow D3 "11.0" "12.0" "10.5" "11.5" "1200".
(** the same day again, with a revised close *)
Definition row3' := mkRow D3 "11.0" "12.0" "10.5" "11.75" "1200".
Definition row4 := mkRow D4 "11.5" "12.5" "11.0" "12.0" "1300".

Definition provider_columns : list string :=
  ["Open"; "High"; "Low"; "Close"; "Volume"; "Dividends"; "Stock Splits"].

Definition provider_row (r : Row) : Timestamp * list cell :=
  (Date r, [Open r; High r; Low r; Close r; Volume r; "0.0"; "0.0"]).

(** A first fetch of three days, and a later one that revises the last of
    them and brings one more. *)
Definition fetch_first : Fetched :=
  mkFetched provider_columns (provider_row <$> [row1; row2; row3]).
Definition fetch_later : Fetched :=
  mkFetched provider_columns (provider_row <$> [row3'; row4]).
Definition fetch_nothing : Fetched := mkFetched provider_columns [].

Definition env_with (fetched : Fetched) (write : option (string * Exception))
    (mv : option Exception) : Env :=
  mkEnv "2024-01-06" (λ _ _ _, Returned fetched) "tmpk3x9_q2a.csv" None write mv.

Definition env_first := env_with fetch_first None None.
Definition env_later := env_with fetch_later None None.
Definition env_nothing := env_with fetch_nothing None None.
(** the disk fills up while the temporary file is being written *)
Definition env_disk_full :=
  env_with fetch_later
    (Some ("Date,Open,Hi", Exc "[Errno 28] No space left on device")) None.
(** the rename is refused *)
Definition env_move_refused :=
  env_with fetch_later None (Some (Exc "[Errno 13] Permission denied")).

Definition world_of (fs : gmap string string) : World := mkWorld fs [] 0.

Definition w_fresh : World := world_of ∅.
(** after a first update of ZTEST *)
Definition w_ztest : World := world_of {[ "ZTEST.csv" := to_csv [row3; row2; row1] ]}.
(** a file whose rows repeat a date *)
Definition w_repeated : World :=
  world_of {[ "ZTEST.csv" := to_csv [row3; row3'; row2] ]}.
(** a file whose date column does not parse *)
Definition bad_text : string :=
  "Date,Open,High,Low,Close,Volume" +:+ newline +:+
  "not-a-date,10.0,11.0,9.5,10.5,1000" +:+ newline.
Definition w_bad : World := world_of {[ "ZTEST.csv" := bad_text ]}.
(** a cache with the file of AAPL *)
Definition w_aapl : World := world_of {[ "AAPL.csv" := to_csv [row2; row1] ]}.

Definition args_of (symbol : string) : gmap string PyVal :=
  {[ "symbol" := PStr symbol ]}.

End Samples.

(** * Facts *)

(** ** The order of dates *)

Ltac ts_crush :=
  repeat match goal with
         | d : Timestamp |- _ => destruct d
         end;
  unfold ts_lt, ts_le in *; simpl in *;
  try (f_equal; lia); try lia.

Lemma ts_le_refl a : ts_le a a.
Proof. ts_crush. Qed.

Lemma ts_le_trans a b c : ts_le a b → ts_le b c → ts_le a c.
Proof. ts_crush. Qed.

Lemma ts_le_total a b : ts_le a b ∨ ts_le b a.
Proof. ts_crush. Qed.

Lemma ts_le_antisym a b : ts_le a b → ts_le b a → a = b.
Proof. intros H1 H2. destruct a, b. unfold ts_le in *. simpl in *. f_equal; lia. Qed.

Lemma ts_lt_le a b : ts_lt a b → ts_le a b.
Proof. ts_crush. Qed.

Lemma ts_lt_irrefl a : ¬ ts_lt a a.
Proof. ts_crush. Qed.

Lemma ts_le_neq_lt a b : ts_le a b → a ≠ b → ts_lt a b.
Proof.
  intros Hle Hne. destruct (decide (ts_lt a b)) as [|Hn]; [done|].
  exfalso. apply Hne. apply ts_le_antisym; [done|]. clear Hne. ts_crush.
Qed.

#[global] Instance row_ge_total : Total row_ge.
Proof. intros r1 r2. unfold row_ge. destruct (ts_le_total (Date r2) (Date r1)); auto. Qed.

#[global] Instance row_ge_trans : Transitive row_ge.
Proof. intros r1 r2 r3 H1 H2. unfold row_ge in *. eapply ts_le_trans; eauto. Qed.

(** ** Frames: duplicates and order *)

Section frame_facts.

Implicit Types (df old new : DataFrame) (r : Row) (d : Timestamp).

Lemma drop_duplicated_cons r df :
  drop_duplicated (r :: df) =
  if bool_decide (Date r ∈ index df) then drop_duplicated df
  else r :: drop_duplicated df.
Proof. unfold drop_duplicated. simpl. by destruct (bool_decide _). Qed.

Lemma drop_duplicated_nil : drop_duplicated [] = [].
Proof. done. Qed.

Lemma drop_duplicated_sub r df : r ∈ drop_duplicated df → r ∈ df.
Proof.
  induction df as [|r0 df IH]; [done|].
  rewrite drop_duplicated_cons, elem_of_cons. case_bool_decide as Hin.
  - intros Hr. right. by apply IH.
  - rewrite elem_of_cons. intros [->|Hr]; [by left | right; by apply IH].
Qed.

Lemma last_with_date_None d df : last_with_date d df = None ↔ d ∉ index df.
Proof.
  induction df as [|r df IH]; simpl.
  - split; [intros _; apply not_elem_of_nil | done].
  - rewrite not_elem_of_cons. destruct (last_with_date d df) eqn:E.
    + split; [done|]. intros [_ H]. by apply IH in H.
    + destruct (decide (Date r = d)) as [->|Hne].
      * split; [done | by intros [? _]].
      * split; [intros _; split; [done | by apply IH] | done].
Qed.

Lemma last_with_date_Some d df r :
  last_with_date d df = Some r → Date r = d ∧ r ∈ df.
Proof.
  induction df as [|r0 df IH]; simpl; [done|].
  destruct (last_with_date d df) eqn:E.
  - intros [= ->]. destruct IH as [? ?]; [done|]. split; [done | by right].
  - destruct (decide (Date r0 = d)); [|done]. intros [= ->]. split; [done | left].
Qed.

Lemma last_with_date_is_Some d df : d ∈ index df → is_Some (last_with_date d df).
Proof.
  intros H. destruct (last_with_date d df) eqn:E; [by eexists|].
  by apply last_with_date_None in E.
Qed.

Lemma last_with_date_app d old new :
  last_with_date d (old ++ new) =
  match last_with_date d new with
  | Some r => Some r
  | None => last_with_date d old
  end.
Proof.
  induction old as [|r old IH]; simpl.
  - by destruct (last_with_date d new).
  - rewrite IH. by destruct (last_with_date d new), (last_with_date d old).
Qed.

(** A row survives [keep='last'] exactly when it is the last one of its
    date. *)
Lemma elem_of_drop_duplicated r df :
  r ∈ drop_duplicated df ↔ last_with_date (Date r) df = Some r.
Proof.
  induction df as [|r0 df IH].
  - simpl. split; [by intros ?%elem_of_nil | done].
  - rewrite drop_duplicated_cons. simpl. case_bool_decide as Hin.
    + rewrite IH. destruct (last_with_date (Date r) df) eqn:E; [done|].
      split; [done|]. destruct (decide (Date r0 = Date r)) as [Heq|]; [|done].
      intros _. apply last_with_date_None in E. by rewrite Heq in Hin.
    + rewrite elem_of_cons, IH.
      destruct (last_with_date (Date r) df) eqn:E.
      * split; [|by right]. intros [->|?]; [|done].
        apply last_with_date_Some in E as [E1 E2].
        exfalso. apply Hin. rewrite <- E1. by apply list_elem_of_fmap_2.
      * destruct (decide (Date r0 = Date r)).
        -- split; [intros [->|?]; done | intros [= ->]; by left].
        -- split; [intros [->|?]; done | done].
Qed.

Lemma index_drop_duplicated d df :
  d ∈ index (drop_duplicated df) ↔ d ∈ index df.
Proof.
  unfold index. rewrite !list_elem_of_fmap. split.
  - intros (r & -> & H). exists r. split; [done | by apply drop_duplicated_sub].
  - intros (r & -> & H).
    destruct (last_with_date_is_Some (Date r) df) as [r' Hr'].
    { by apply list_elem_of_fmap_2. }
    exists r'. pose proof (last_with_date_Some _ _ _ Hr') as [Hd _].
    split; [done|]. apply elem_of_drop_duplicated. by rewrite Hd.
Qed.

Lemma NoDup_index_drop_duplicated df : NoDup (index (drop_duplicated df)).
Proof.
  induction df as [|r df IH]; [constructor|].
  rewrite drop_duplicated_cons. case_bool_decide as Hin; [done|].
  simpl. constructor; [|done]. by rewrite index_drop_duplicated.
Qed.

End frame_facts.

Section order_facts.

Implicit Types (df old new : DataFrame) (r : Row) (d : Timestamp).

Lemma sort_index_Permutation df : sort_index df ≡ₚ df.
Proof. apply merge_sort_Permutation. Qed.

Lemma elem_of_sort_index r df : r ∈ sort_index df ↔ r ∈ df.
Proof. by rewrite sort_index_Permutation. Qed.

Lemma index_sort_index df : index (sort_index df) ≡ₚ index df.
Proof. unfold index. by rewrite sort_index_Permutation. Qed.

Lemma sort_index_descending df : descending (sort_index df).
Proof. apply StronglySorted_merge_sort; apply _. Qed.

(** Without a repeated date, descending is strictly descending. *)
Lemma descending_NoDup_strict df :
  descending df → NoDup (index df) → strictly_descending df.
Proof.
  unfold descending, strictly_descending.
  induction 1 as [|r df Hs IH Hall]; intros Hnd; [constructor|].
  simpl in Hnd. apply NoDup_cons in Hnd as [Hnotin Hnd].
  constructor; [by apply IH|].
  rewrite Forall_forall in Hall |- *. intros r' Hr'.
  apply ts_le_neq_lt; [by apply Hall|].
  intros Heq. apply Hnotin. rewrite <- Heq. by apply list_elem_of_fmap_2.
Qed.

(** And a strictly descending frame has no repeated date. *)
Lemma strictly_descending_NoDup df : strictly_descending df → NoDup (index df).
Proof.
  induction 1 as [|r df Hs IH Hall]; simpl; constructor; [|done].
  intros (r' & Heq & Hr')%list_elem_of_fmap.
  rewrite Forall_forall in Hall. specialize (Hall r' Hr').
  unfold row_gt in Hall. rewrite <- Heq in Hall. by apply ts_lt_irrefl in Hall.
Qed.

Lemma strictly_descending_descending df : strictly_descending df → descending df.
Proof.
  induction 1 as [|r df Hs IH Hall]; constructor; [done|].
  eapply Forall_impl; [done|]. intros r'. apply ts_lt_le.
Qed.

Lemma sort_index_strict df : NoDup (index df) → strictly_descending (sort_index df).
Proof.
  intros Hnd. apply descending_NoDup_strict; [apply sort_index_descending|].
  by rewrite index_sort_index.
Qed.

Lemma elem_of_merge_Some r old new :
  r ∈ merge (Some old) new ↔ last_with_date (Date r) (old ++ new) = Some r.
Proof.
  unfold merge, df_combined_of, pd_concat.
  by rewrite elem_of_sort_index, elem_of_drop_duplicated.
Qed.

Lemma index_merge_Some d old new :
  d ∈ index (merge (Some old) new) ↔ d ∈ index old ∨ d ∈ index new.
Proof.
  unfold merge, df_combined_of, pd_concat.
  rewrite index_sort_index, index_drop_duplicated.
  unfold index. by rewrite fmap_app, elem_of_app.
Qed.

Lemma NoDup_index_merge_Some old new : NoDup (index (merge (Some old) new)).
Proof.
  unfold merge. rewrite index_sort_index. apply NoDup_index_drop_duplicated.
Qed.

Lemma merge_descending (prior : option DataFrame) new : descending (merge prior new).
Proof. apply sort_index_descending. Qed.

Lemma merge_Some_strict old new : strictly_descending (merge (Some old) new).
Proof.
  apply descending_NoDup_strict;
    [apply merge_descending | apply NoDup_index_merge_Some].
Qed.

Lemma merge_None_Permutation new : merge None new ≡ₚ new.
Proof. apply sort_index_Permutation. Qed.

End order_facts.

(** ** Running the server functions *)

Section run_facts.

Implicit Types (env : Env) (w : World) (df : DataFrame).

#[local] Arguments empty : simpl never.
#[local] Arguments select_keep_columns : simpl never.
#[local] Arguments capitalize_columns : simpl never.
#[local] Arguments read_csv : simpl never.
#[local] Arguments parse_dates : simpl never.
#[local] Arguments to_csv : simpl never.
#[local] Arguments sort_index : simpl never.
#[local] Arguments df_combined_of : simpl never.
#[local] Arguments csv_path : simpl never.
#[local] Arguments result : simpl never.
#[local] Arguments result_data : simpl never.
#[local] Arguments String.app : simpl never.

Ltac unfold_py :=
  unfold bind, try_except, raise, ret, lift, print_stderr, sleep, get_files,
    set_files, exists_, unlink, file_text in *.

(** The whole of [save_dataframe_to_csv], by which library call raises
    first. *)
Lemma save_dataframe_to_csv_run env df file_path w :
  save_dataframe_to_csv env df file_path w =
  match save_fault env with
  | Some e =>
      (Raised e,
       mkWorld
         (match temp_create env with
          | Some _ => files w
          | None => delete (temp_name env) (files w)
          end)
         (stderr w ++ ["Error saving CSV file: " +:+ str e]) (slept w))
  | None =>
      (Returned (),
       mkWorld (<[file_path := to_csv df]> (delete (temp_name env) (files w)))
         (stderr w ++ ["Successfully saved data to " +:+ file_path]) (slept w))
  end.
Proof.
  unfold save_dataframe_to_csv, save_fault, NamedTemporaryFile, to_csv_file,
    shutil_move.
  destruct (temp_create env) as [e|]; [done|].
  destruct (csv_write env) as [[partial e]|].
  - unfold_py. simpl. rewrite lookup_insert_eq.
    rewrite bool_decide_eq_true_2 by by eexists. simpl.
    by rewrite !delete_insert_eq.
  - destruct (move env) as [e|].
    + unfold_py. simpl. rewrite lookup_insert_eq.
      rewrite bool_decide_eq_true_2 by by eexists. simpl.
      by rewrite !delete_insert_eq.
    + unfold_py. simpl. rewrite lookup_insert_eq. simpl.
      by rewrite !delete_insert_eq.
Qed.

(** The whole of [update_stock_data]: what it returns and what it leaves
    in the data directory, by how the fetch and the write go. *)
Lemma update_stock_data_run env symbol start_date w :
  let run := update_stock_data env symbol start_date w in
  slept run.2 = slept w ∧
  match normalized (history env symbol start_date (today env)) with
  | Raised e =>
      run.1 = Returned (result "error"
                ("Error updating data for " +:+ symbol +:+ ": " +:+ str e))
      ∧ files run.2 = files w
  | Returned None =>
      run.1 = Returned (result "error" ("Unable to fetch data for " +:+ symbol))
      ∧ files run.2 = files w
  | Returned (Some new) =>
      match save_fault env with
      | Some e =>
          run.1 = Returned (result "error" ("Error saving data: " +:+ str e))
          ∧ files run.2 =
              match temp_create env with
              | Some _ => files w
              | None => delete (temp_name env) (files w)
              end
      | None =>
          run.1 = Returned (result "success"
                    ("Successfully updated data for " +:+ symbol))
          ∧ files run.2 =
              <[csv_path symbol :=
                  to_csv (merge (prior_series (files w !! csv_path symbol)) new)]>
                (delete (temp_name env) (files w))
      end
  end.
Proof.
  unfold update_stock_data, normalized, merge, prior_series. unfold_py.
  destruct (history env symbol start_date (today env)) as [fetched|e];
    simpl; [|done].
  destruct (empty fetched); simpl; [done|].
  destruct (select_keep_columns (capitalize_columns fetched)) as [new|e];
    simpl; [|done].
  destruct (files w !! csv_path symbol) as [text|]; simpl.
  - destruct (read_csv text) as [t|e]; simpl.
    + destruct (parse_dates t) as [old|e]; simpl;
        rewrite save_dataframe_to_csv_run; by destruct (save_fault env).
    + rewrite save_dataframe_to_csv_run; by destruct (save_fault env).
  - rewrite save_dataframe_to_csv_run; by destruct (save_fault env).
Qed.

(** The whole of [read_local_stock_data]. *)
Lemma read_local_stock_data_run stock_code w :
  read_local_stock_data stock_code w =
  match files w !! csv_path stock_code with
  | None => (Returned None, w)
  | Some text =>
      match obind (read_csv text) parse_dates with
      | Returned df => (Returned (Some (sort_index df)), w)
      | Raised e =>
          (Returned None,
           mkWorld (files w) (stderr w ++ ["Error reading CSV file: " +:+ str e])
             (slept w))
      end
  end.
Proof.
  unfold read_local_stock_data. unfold_py. simpl.
  destruct (files w !! csv_path stock_code) as [text|]; simpl; [|done].
  destruct (read_csv text) as [t|e]; simpl; [|done].
  by destruct (parse_dates t).
Qed.

(** The whole of [get_local_stock_data]. *)
Lemma get_local_stock_data_run args w :
  get_local_stock_data args w =
  match args !! "symbol" with
  | Some (PStr symbol) =>
      match read_local_stock_data symbol w with
      | (Returned (Some data), w') =>
          (Returned (result_data "success"
             ("Successfully retrieved historical data for " +:+ symbol)
             (PFrame data)), w')
      | (_, w') =>
          (Returned (result_data "error"
             ("Data not found for symbol " +:+ symbol) PEmptyList), w')
      end
  | Some _ =>
      (Returned (result_data "error"
         ("Error retrieving data: " +:+ "symbol" +:+ ": Input should be a valid string")
         PEmptyList), w)
  | None =>
      (Returned (result_data "error"
         ("Error retrieving data: " +:+ "symbol" +:+ ": Field required")
         PEmptyList), w)
  end.
Proof.
  unfold get_local_stock_data, GetLocalStockDataArgs, validate_field.
  destruct (args !! "symbol") as [[symbol| | | |]|]; try done.
  unfold bind, try_except, ret. simpl.
  rewrite read_local_stock_data_run.
  destruct (files w !! csv_path symbol) as [text|]; [|done].
  by destruct (obind (read_csv text) parse_dates).
Qed.

(** The whole of [update_stock_data_tool], over [update_stock_data]. *)
Lemma update_stock_data_tool_run env args w :
  update_stock_data_tool env args w =
  match args !! "symbol" with
  | Some (PStr symbol) =>
      match args !! "start_date" with
      | Some (PStr _) | None =>
          let start_date :=
            match args !! "start_date" with
            | Some (PStr s) => s
            | _ => "2015-01-01"
            end in
          match update_stock_data env symbol start_date w with
          | (Returned result, w') =>
              if bool_decide (result !! "status" = Some (PStr "error"))
              then (Returned result, w')
              else (Returned result,
                    mkWorld (files w') (stderr w') (slept w' + 5))
          | (Raised e, w') =>
              (Returned (result "error" ("Error updating data: " +:+ str e)), w')
          end
      | Some _ =>
          (Returned (result "error"
             ("Error updating data: " +:+ "start_date"
              +:+ ": Input should be a valid string")), w)
      end
  | Some _ =>
      (Returned (result "error"
         ("Error updating data: " +:+ "symbol" +:+ ": Input should be a valid string")),
       w)
  | None =>
      (Returned (result "error"
         ("Error updating data: " +:+ "symbol" +:+ ": Field required")), w)
  end.
Proof.
  unfold update_stock_data_tool, UpdateStockDataArgs, validate_field.
  destruct (args !! "symbol") as [[symbol| | | |]|]; try done.
  destruct (args !! "start_date") as [[start| | | |]|]; try done.
  - unfold_py. simpl.
    destruct (update_stock_data env symbol start w) as [[d|e] w']; [|done].
    by destruct (bool_decide _).
  - unfold_py. simpl.
    destruct (update_stock_data env symbol "2015-01-01" w) as [[d|e] w']; [|done].
    by destruct (bool_decide _).
Qed.

End run_facts.

(** ** The text of a date *)

Section csv_facts.

Lemma app_String c s t : String c s +:+ t = String c (s +:+ t).
Proof. done. Qed.

Lemma app_EmptyString t : "" +:+ t = t.
Proof. done. Qed.

Lemma is_digit_digit_char n : is_digit (digit_char n) = true.
Proof. do 10 (destruct n as [|n]; [done|]). done. Qed.

Lemma digit_val_digit_char n : n < 10 → digit_val (digit_char n) = Some n.
Proof. intros Hn. do 10 (destruct n as [|n]; [done|]). lia. Qed.


Lemma number_of_two n :
  n < 100 →
  number_of [digit_char ((n / 10) `mod` 10); digit_char (n `mod` 10)] = Some n.
Proof.
  intros Hn. unfold number_of. cbn [foldl mbind option_bind].
  rewrite !digit_val_digit_char by (apply Nat.mod_upper_bound; lia).
  cbn [mbind option_bind].
  f_equal. pose proof (Nat.div_mod_eq n 10).
  rewrite (Nat.mod_small (n / 10) 10) by (apply Nat.Div0.div_lt_upper_bound; lia).
  lia.
Qed.

Lemma number_of_four n :
  n < 10 * 1000 →
  number_of [digit_char ((n / 1000) `mod` 10); digit_char ((n / 100) `mod` 10);
             digit_char ((n / 10) `mod` 10); digit_char (n `mod` 10)] = Some n.
Proof.
  intros Hn. unfold number_of. cbn [foldl mbind option_bind].
  rewrite !digit_val_digit_char by (apply Nat.mod_upper_bound; lia).
  cbn [mbind option_bind].
  f_equal.
  assert (n / 100 = n / 10 / 10) as E2 by (by rewrite Nat.Div0.div_div).
  assert (n / 1000 = n / 10 / 10 / 10) as E3 by (by rewrite !Nat.Div0.div_div).
  assert (n / 1000 < 10) as Hlt by (apply Nat.Div0.div_lt_upper_bound; lia).
  rewrite (Nat.mod_small (n / 1000) 10) by done.
  rewrite E2, E3.
  pose proof (Nat.div_mod_eq n 10) as H1.
  pose proof (Nat.div_mod_eq (n / 10) 10) as H2.
  pose proof (Nat.div_mod_eq (n / 10 / 10) 10) as H3.
  rewrite E3 in Hlt. lia.
Qed.

(** The text of a date of the calendar reads back as that date. *)
Lemma to_datetime_strftime_date d :
  valid_date d = true → to_datetime (strftime_date d) = Returned d.
Proof.
  unfold valid_date. rewrite !andb_true_iff, !bool_decide_eq_true.
  intros [[Hy Hm] Hd].
  assert (day d < 100) as Hd'.
  { destruct Hd as [_ Hd]. revert Hd. unfold days_in_month.
    repeat case_match; lia. }
  destruct d as [y m a]. cbn [year month day] in *.
  unfold strftime_date, four_digits, two_digits, to_datetime.
  cbn [year month day]. rewrite !app_String, !app_EmptyString.
  rewrite number_of_four, !number_of_two by lia.
  unfold valid_date. cbn [year month day andb].
  by rewrite !bool_decide_eq_true_2 by done.
Qed.

End csv_facts.

(** * The claims *)

(** ** Results of the tools *)

Section result_facts.

Lemma result_status status message :
  result status message !! "status" = Some (PStr status).
Proof. unfold result. by rewrite lookup_insert_eq. Qed.

Lemma result_message status message :
  result status message !! "message" = Some (PStr message).
Proof.
  unfold result. rewrite lookup_insert_ne by done. by rewrite lookup_singleton_eq.
Qed.

Lemma result_data_status status message data :
  result_data status message data !! "status" = Some (PStr status).
Proof. unfold result_data. by rewrite lookup_insert_eq. Qed.

Lemma result_data_message status message data :
  result_data status message data !! "message" = Some (PStr message).
Proof.
  unfold result_data. rewrite lookup_insert_ne by done. by rewrite lookup_insert_eq.
Qed.

Lemma structured_result status message :
  status = "success" ∨ status = "error" → structured (result status message).
Proof.
  intros Hs. split; [|eexists; apply result_message].
  rewrite result_status. destruct Hs as [-> | ->]; auto.
Qed.

Lemma structured_result_data status message data :
  status = "success" ∨ status = "error" →
  structured (result_data status message data).
Proof.
  intros Hs. split; [|eexists; apply result_data_message].
  rewrite result_data_status. destruct Hs as [-> | ->]; auto.
Qed.

(** [update_stock_data] never raises, and what it returns is a result. *)
Lemma update_stock_data_returns env symbol start_date w :
  ∃ status message,
    (status = "success" ∨ status = "error")
    ∧ (update_stock_data env symbol start_date w).1
      = Returned (result status message).
Proof.
  pose proof (update_stock_data_run env symbol start_date w) as [_ H].
  simpl in H.
  destruct (normalized (history env symbol start_date (today env)))
    as [[new|]|e].
  - destruct (save_fault env) as [e|]; destruct H as [-> _]; eauto 6.
  - destruct H as [-> _]; eauto 6.
  - destruct H as [-> _]; eauto 6.
Qed.

(** A successful update has fetched rows, written them merged into the
    prior series, and changed nothing else but the temporary entry. *)
Lemma update_stock_data_success env symbol start_date w d :
  (update_stock_data env symbol start_date w).1 = Returned d →
  d !! "status" = Some (PStr "success") →
  ∃ new,
    normalized (history env symbol start_date (today env)) = Returned (Some new)
    ∧ files (update_stock_data env symbol start_date w).2 =
      <[csv_path symbol :=
          to_csv (merge (prior_series (files w !! csv_path symbol)) new)]>
        (delete (temp_name env) (files w)).
Proof.
  pose proof (update_stock_data_run env symbol start_date w) as [_ H].
  simpl in H. intros Hd Hs.
  destruct (normalized (history env symbol start_date (today env)))
    as [[new|]|e].
  - destruct (save_fault env) as [e|]; destruct H as [H1 H2].
    + rewrite H1 in Hd. injection Hd as <-. by rewrite result_status in Hs.
    + eauto.
  - destruct H as [H1 _]. rewrite H1 in Hd. injection Hd as <-.
    by rewrite result_status in Hs.
  - destruct H as [H1 _]. rewrite H1 in Hd. injection Hd as <-.
    by rewrite result_status in Hs.
Qed.

(** An update that is not successful leaves every file as it was. *)
Lemma update_stock_data_failure env symbol start_date w d :
  files w !! temp_name env = None →
  (update_stock_data env symbol start_date w).1 = Returned d →
  d !! "status" ≠ Some (PStr "success") →
  files (update_stock_data env symbol start_date w).2 = files w.
Proof.
  pose proof (update_stock_data_run env symbol start_date w) as [_ H].
  simpl in H. intros Hfresh Hd Hs.
  destruct (normalized (history env symbol start_date (today env)))
    as [[new|]|e]; [|by destruct H..].
  destruct (save_fault env) as [e|]; destruct H as [H1 H2].
  - rewrite H2. destruct (temp_create env); [done | by apply delete_id].
  - rewrite H1 in Hd. injection Hd as <-. by rewrite result_status in Hs.
Qed.

End result_facts.

(** ** The atomic write *)

Section write_claims.

(** C1.  With the temporary file a new entry of the data directory: when
    [save_dataframe_to_csv] raises, at whichever library call, the data
    directory is as it was before the call, so the temporary file is gone
    and the file of the symbol has the text it had, or is absent as it
    was; when it returns, the file of the symbol holds the whole CSV text
    and nothing else has changed.  Hence [update_stock_data] leaves the
    data directory as it was, or with the file of the symbol replaced by a
    whole CSV text. *)
Theorem save_dataframe_to_csv_all_or_nothing env df symbol start_date w :
  files w !! temp_name env = None →
  (let run := save_dataframe_to_csv env df (csv_path symbol) w in
   match run.1 with
   | Raised _ =>
       files run.2 !! temp_name env = None
       ∧ files run.2 !! csv_path symbol = files w !! csv_path symbol
       ∧ files run.2 = files w
   | Returned _ => files run.2 = <[csv_path symbol := to_csv df]> (files w)
   end)
  ∧
  (let run := update_stock_data env symbol start_date w in
   files run.2 = files w
   ∨ ∃ df', files run.2 = <[csv_path symbol := to_csv df']> (files w)).
Proof.
  intros Hfresh. split.
  - simpl. rewrite save_dataframe_to_csv_run.
    destruct (save_fault env) as [e|]; simpl.
    + assert (match temp_create env with
              | Some _ => files w
              | None => delete (temp_name env) (files w)
              end = files w) as ->
        by (destruct (temp_create env); [done | by apply delete_id]).
      done.
    + by rewrite delete_id.
  - simpl.
    destruct (update_stock_data_returns env symbol start_date w)
      as (status & message & Hs & Hrun).
    destruct (decide (status = "success")) as [->|Hne].
    + right.
      destruct (update_stock_data_success env symbol start_date w _ Hrun)
        as (new & _ & Hfiles); [apply result_status|].
      rewrite Hfiles, delete_id by done. eauto.
    + left. eapply update_stock_data_failure; [done..|].
      rewrite result_status. congruence.
Qed.

(** The disk fills up during the write of the temporary file, over an
    existing file of the symbol. *)
Lemma save_dataframe_to_csv_all_or_nothing_witness :
  files Samples.w_ztest !! temp_name Samples.env_disk_full = None
  ∧ (let run := save_dataframe_to_csv Samples.env_disk_full
                  [Samples.row4; Samples.row3'] (csv_path "ZTEST") Samples.w_ztest in
     match run.1 with
     | Raised _ =>
         files run.2 !! temp_name Samples.env_disk_full = None
         ∧ files run.2 !! csv_path "ZTEST" = files Samples.w_ztest !! csv_path "ZTEST"
         ∧ files run.2 = files Samples.w_ztest
     | Returned _ =>
         files run.2 =
         <[csv_path "ZTEST" := to_csv [Samples.row4; Samples.row3']]>
           (files Samples.w_ztest)
     end).
Proof.
  split; [vm_compute; reflexivity|].
  apply (save_dataframe_to_csv_all_or_nothing Samples.env_disk_full
           [Samples.row4; Samples.row3'] "ZTEST" "2015-01-01" Samples.w_ztest).
  vm_compute; reflexivity.
Defined.

(** C6.  When the provider returns an empty frame, [update_stock_data]
    returns the error result whose message names the symbol, and the data
    directory is as it was. *)
Theorem update_stock_data_empty_fetch env symbol start_date fetched w :
  history env symbol start_date (today env) = Returned fetched →
  empty fetched = true →
  let run := update_stock_data env symbol start_date w in
  run.1 = Returned (result "error" ("Unable to fetch data for " +:+ symbol))
  ∧ files run.2 = files w.
Proof.
  intros Hfetch Hempty.
  pose proof (update_stock_data_run env symbol start_date w) as [_ H].
  unfold normalized in H. rewrite Hfetch in H. simpl in H.
  rewrite Hempty in H. exact H.
Qed.

Lemma update_stock_data_empty_fetch_witness :
  history Samples.env_nothing "BADSYM" "2015-01-01" (today Samples.env_nothing)
    = Returned Samples.fetch_nothing
  ∧ empty Samples.fetch_nothing = true
  ∧ (let run := update_stock_data Samples.env_nothing "BADSYM" "2015-01-01"
                  Samples.w_ztest in
     run.1 = Returned (result "error" ("Unable to fetch data for " +:+ "BADSYM"))
     ∧ files run.2 = files Samples.w_ztest).
Proof.
  split; [reflexivity|]. split; [reflexivity|].
  apply (update_stock_data_empty_fetch Samples.env_nothing "BADSYM" "2015-01-01"
           Samples.fetch_nothing Samples.w_ztest); reflexivity.
Defined.

End write_claims.

(** ** The tool boundary *)

Section tool_claims.

(** C5.  Whatever the arguments, the data directory and the behaviour of
    the provider and of the file system calls, each of the two tools
    returns, and what it returns has a status that is success or error and
    a message: no exception leaves [get_local_stock_data] or
    [update_stock_data_tool]. *)
Theorem tools_return_structured_results env args w :
  (∃ d, (get_local_stock_data args w).1 = Returned d ∧ structured d)
  ∧ (∃ d, (update_stock_data_tool env args w).1 = Returned d ∧ structured d).
Proof.
  split.
  - rewrite get_local_stock_data_run.
    destruct (args !! "symbol") as [[symbol| | | |]|];
      try (eexists; split; [done | apply structured_result_data; auto]).
    destruct (read_local_stock_data symbol w) as [[[data|]|e] w'];
      eexists; (split; [done | apply structured_result_data; auto]).
  - rewrite update_stock_data_tool_run.
    destruct (args !! "symbol") as [[symbol| | | |]|];
      try (eexists; split; [done | apply structured_result; auto]).
    assert (∀ start_date,
      ∃ d, (match update_stock_data env symbol start_date w with
            | (Returned result, w') =>
                if bool_decide (result !! "status" = Some (PStr "error"))
                then (Returned result, w')
                else (Returned result,
                      mkWorld (files w') (stderr w') (slept w' + 5))
            | (Raised e, w') =>
                (Returned (Server.result "error"
                   ("Error updating data: " +:+ str e)), w')
            end).1 = Returned d ∧ structured d) as Hcall.
    { intros start_date.
      destruct (update_stock_data_returns env symbol start_date w)
        as (status & message & Hs & Hrun).
      destruct (update_stock_data env symbol start_date w) as [[d|e] w'];
        simpl in Hrun; [|done].
      injection Hrun as ->. exists (result status message).
      split; [by case_bool_decide | by apply structured_result]. }
    destruct (args !! "start_date") as [[start| | | |]|];
      try (eexists; split; [done | apply structured_result; auto]);
      apply Hcall.
Qed.

(** C7, as the code has it.  A file whose date column does not parse is
    read as if there were no file: [get_local_stock_data] returns the same
    result, with the same message, as for a symbol without a file; the
    parse error only goes to the error stream. *)
Theorem get_local_stock_data_unparseable_as_not_found args symbol text e w :
  args !! "symbol" = Some (PStr symbol) →
  files w !! csv_path symbol = Some text →
  obind (read_csv text) parse_dates = Raised e →
  get_local_stock_data args w =
    (Returned (result_data "error" ("Data not found for symbol " +:+ symbol)
                 PEmptyList),
     mkWorld (files w) (stderr w ++ ["Error reading CSV file: " +:+ str e])
       (slept w))
  ∧ ∀ w0, files w0 !! csv_path symbol = None →
      get_local_stock_data args w0 =
        (Returned (result_data "error" ("Data not found for symbol " +:+ symbol)
                     PEmptyList), w0).
Proof.
  intros Hargs Hfile Hparse. split.
  - rewrite get_local_stock_data_run, Hargs, read_local_stock_data_run.
    by rewrite Hfile, Hparse.
  - intros w0 Hnone.
    rewrite get_local_stock_data_run, Hargs, read_local_stock_data_run.
    by rewrite Hnone.
Qed.

Lemma get_local_stock_data_unparseable_as_not_found_witness :
  Samples.args_of "ZTEST" !! "symbol" = Some (PStr "ZTEST")
  ∧ files Samples.w_bad !! csv_path "ZTEST" = Some Samples.bad_text
  ∧ obind (read_csv Samples.bad_text) parse_dates
    = Raised (Exc "Unknown datetime string format, unable to parse: not-a-date")
  ∧ get_local_stock_data (Samples.args_of "ZTEST") Samples.w_bad =
      (Returned (result_data "error" ("Data not found for symbol " +:+ "ZTEST")
                   PEmptyList),
       mkWorld (files Samples.w_bad)
         (stderr Samples.w_bad ++
          ["Error reading CSV file: " +:+
           str (Exc "Unknown datetime string format, unable to parse: not-a-date")])
         (slept Samples.w_bad)).
Proof.
  split; [vm_compute; reflexivity|].
  split; [vm_compute; reflexivity|].
  split; [vm_compute; reflexivity|].
  apply (get_local_stock_data_unparseable_as_not_found
           (Samples.args_of "ZTEST") "ZTEST" Samples.bad_text
           (Exc "Unknown datetime string format, unable to parse: not-a-date")
           Samples.w_bad);
    vm_compute; reflexivity.
Defined.

(** C7 as stated fails: the read of a file with an unparseable date
    column and the read of a missing file return the very same result. *)
Lemma get_local_stock_data_parse_error_not_distinct :
  obind (read_csv Samples.bad_text) parse_dates
    = Raised (Exc "Unknown datetime string format, unable to parse: not-a-date")
  ∧ files Samples.w_bad !! csv_path "ZTEST" = Some Samples.bad_text
  ∧ files Samples.w_fresh !! csv_path "ZTEST" = None
  ∧ (get_local_stock_data (Samples.args_of "ZTEST") Samples.w_bad).1
    = (get_local_stock_data (Samples.args_of "ZTEST") Samples.w_fresh).1
  ∧ (get_local_stock_data (Samples.args_of "ZTEST") Samples.w_bad).1
    = Returned (result_data "error" "Data not found for symbol ZTEST" PEmptyList).
Proof. repeat split; vm_compute; reflexivity. Qed.

End tool_claims.

(** ** The name of the cache file *)

Section name_claims.






End name_claims.

(** ** The merge *)

Section merge_claims.

Implicit Types (old new df : DataFrame) (r : Row) (d : Timestamp).

Lemma same_date_same_row df r1 r2 :
  NoDup (index df) → r1 ∈ df → r2 ∈ df → Date r1 = Date r2 → r1 = r2.
Proof.
  induction df as [|r df IH]; simpl; [by intros _ ?%elem_of_nil|].
  rewrite NoDup_cons, !elem_of_cons. intros [Hnotin Hnd] [->|H1] [->|H2] Heq.
  - done.
  - exfalso. apply Hnotin. rewrite Heq. by apply list_elem_of_fmap_2.
  - exfalso. apply Hnotin. rewrite <- Heq. by apply list_elem_of_fmap_2.
  - by apply IH.
Qed.

(** C2.  For a date that the prior series and the fetched series both
    have, the merged series has exactly one row, and it is the row of the
    fetched series for that date (its last one there, should the fetch
    repeat the date; its only one when the fetched dates are unique),
    whatever the prior row holds. *)
Theorem merge_new_row_wins old new d :
  d ∈ index old → d ∈ index new →
  ∃ r, r ∈ new ∧ Date r = d ∧ last_with_date d new = Some r
    ∧ r ∈ merge (Some old) new
    ∧ (∀ r', r' ∈ merge (Some old) new → Date r' = d → r' = r)
    ∧ (NoDup (index new) → ∀ r_new, r_new ∈ new → Date r_new = d → r_new = r).
Proof.
  intros _ Hnew.
  destruct (last_with_date_is_Some d new Hnew) as [r Hr].
  pose proof (last_with_date_Some _ _ _ Hr) as [Hd Hin].
  exists r. repeat split; try done.
  - apply elem_of_merge_Some. by rewrite last_with_date_app, Hd, Hr.
  - intros r' Hr' Hd'. apply elem_of_merge_Some in Hr'.
    rewrite last_with_date_app, Hd', Hr in Hr'. congruence.
  - intros Hnd r_new Hr_new Hd_new.
    apply (same_date_same_row new); [done..|congruence].
Qed.

(** The prior series has 2024-01-04 with one close, the fetch has it with
    another. *)
Lemma merge_new_row_wins_witness :
  Samples.D3 ∈ index [Samples.row3; Samples.row2; Samples.row1]
  ∧ Samples.D3 ∈ index [Samples.row3'; Samples.row4]
  ∧ ∃ r, r ∈ [Samples.row3'; Samples.row4] ∧ Date r = Samples.D3
    ∧ last_with_date Samples.D3 [Samples.row3'; Samples.row4] = Some r
    ∧ r ∈ merge (Some [Samples.row3; Samples.row2; Samples.row1])
            [Samples.row3'; Samples.row4]
    ∧ (∀ r', r' ∈ merge (Some [Samples.row3; Samples.row2; Samples.row1])
                    [Samples.row3'; Samples.row4] →
             Date r' = Samples.D3 → r' = r)
    ∧ (NoDup (index [Samples.row3'; Samples.row4]) →
       ∀ r_new, r_new ∈ [Samples.row3'; Samples.row4] →
                Date r_new = Samples.D3 → r_new = r).
Proof.
  split; [simpl; apply list_elem_of_here|].
  split; [simpl; apply list_elem_of_here|].
  apply (merge_new_row_wins [Samples.row3; Samples.row2; Samples.row1]
           [Samples.row3'; Samples.row4] Samples.D3);
    simpl; apply list_elem_of_here.
Defined.

(** C3.  The dates of the merged series are those of the prior series
    together with those of the fetched series, and none of them occurs
    twice; this needs no assumption on the two series, so it holds in
    particular when each has unique dates. *)
Theorem merge_dates_are_the_union old new :
  (∀ d, d ∈ index (merge (Some old) new) ↔ d ∈ index old ∨ d ∈ index new)
  ∧ NoDup (index (merge (Some old) new)).
Proof.
  split; [intros d; apply index_merge_Some | apply NoDup_index_merge_Some].
Qed.

(** C10.  When the file of the symbol parses, to rows that may repeat a
    date, a successful update writes the merge of those rows with the
    fetched ones: one row per date, each the last one of its date in the
    prior rows followed by the fetched rows, so a fetched row for every
    date the fetch has. *)
Theorem update_stock_data_keeps_last_per_date env symbol start_date w text old res :
  files w !! csv_path symbol = Some text →
  obind (read_csv text) parse_dates = Returned old →
  (update_stock_data env symbol start_date w).1 = Returned res →
  res !! "status" = Some (PStr "success") →
  ∃ new,
    normalized (history env symbol start_date (today env)) = Returned (Some new)
    ∧ files (update_stock_data env symbol start_date w).2 !! csv_path symbol
      = Some (to_csv (merge (Some old) new))
    ∧ merge (Some old) new = sort_index (drop_duplicated (old ++ new))
    ∧ NoDup (index (merge (Some old) new))
    ∧ (∀ r, r ∈ merge (Some old) new ↔
            last_with_date (Date r) (old ++ new) = Some r)
    ∧ (∀ d, d ∈ index old ∨ d ∈ index new →
            ∃ r, r ∈ merge (Some old) new ∧ Date r = d)
    ∧ (∀ r, r ∈ merge (Some old) new → Date r ∈ index new → r ∈ new).
Proof.
  intros Hfile Hparse Hrun Hs.
  destruct (update_stock_data_success env symbol start_date w res Hrun Hs)
    as (new & Hnew & Hfiles).
  exists new. split; [done|]. split.
  { rewrite Hfiles, lookup_insert_eq, Hfile. unfold prior_series.
    by rewrite Hparse. }
  split; [done|]. split; [apply NoDup_index_merge_Some|].
  split; [intros r; apply elem_of_merge_Some|]. split.
  - intros d Hd. apply index_merge_Some in Hd.
    apply list_elem_of_fmap in Hd as (r & -> & Hr). eauto.
  - intros r Hr Hd. apply elem_of_merge_Some in Hr.
    rewrite last_with_date_app in Hr.
    destruct (last_with_date (Date r) new) as [r'|] eqn:E.
    + injection Hr as ->. by apply last_with_date_Some in E as [_ ?].
    + by apply last_with_date_None in E.
Qed.

(** The file of ZTEST has 2024-01-04 twice; the fetch has it once more. *)
Lemma update_stock_data_keeps_last_per_date_witness :
  files Samples.w_repeated !! csv_path "ZTEST"
    = Some (to_csv [Samples.row3; Samples.row3'; Samples.row2])
  ∧ obind (read_csv (to_csv [Samples.row3; Samples.row3'; Samples.row2])) parse_dates
    = Returned [Samples.row3; Samples.row3'; Samples.row2]
  ∧ (update_stock_data Samples.env_later "ZTEST" "2015-01-01" Samples.w_repeated).1
    = Returned (result "success" "Successfully updated data for ZTEST")
  ∧ result "success" "Successfully updated data for ZTEST" !! "status"
    = Some (PStr "success")
  ∧ ∃ new,
      normalized (history Samples.env_later "ZTEST" "2015-01-01"
                    (today Samples.env_later)) = Returned (Some new)
      ∧ files (update_stock_data Samples.env_later "ZTEST" "2015-01-01"
                 Samples.w_repeated).2 !! csv_path "ZTEST"
        = Some (to_csv (merge (Some [Samples.row3; Samples.row3'; Samples.row2]) new))
      ∧ merge (Some [Samples.row3; Samples.row3'; Samples.row2]) new
        = sort_index (drop_duplicated ([Samples.row3; Samples.row3'; Samples.row2] ++ new))
      ∧ NoDup (index (merge (Some [Samples.row3; Samples.row3'; Samples.row2]) new))
      ∧ (∀ r, r ∈ merge (Some [Samples.row3; Samples.row3'; Samples.row2]) new ↔
              last_with_date (Date r)
                ([Samples.row3; Samples.row3'; Samples.row2] ++ new) = Some r)
      ∧ (∀ d, d ∈ index [Samples.row3; Samples.row3'; Samples.row2] ∨ d ∈ index new →
              ∃ r, r ∈ merge (Some [Samples.row3; Samples.row3'; Samples.row2]) new
                   ∧ Date r = d)
      ∧ (∀ r, r ∈ merge (Some [Samples.row3; Samples.row3'; Samples.row2]) new →
              Date r ∈ index new → r ∈ new).
Proof.
  split; [vm_compute; reflexivity|].
  split; [vm_compute; reflexivity|].
  split; [vm_compute; reflexivity|].
  split; [vm_compute; reflexivity|].
  apply (update_stock_data_keeps_last_per_date Samples.env_later "ZTEST"
           "2015-01-01" Samples.w_repeated
           (to_csv [Samples.row3; Samples.row3'; Samples.row2])
           [Samples.row3; Samples.row3'; Samples.row2]
           (result "success" "Successfully updated data for ZTEST"));
    vm_compute; reflexivity.
Defined.

End merge_claims.

(** ** Order and layout *)

Section order_claims.

Implicit Types (old new df : DataFrame) (r : Row) (d : Timestamp).

(** C4, as the code has it.  A series returned by
    [read_local_stock_data], and a series the update builds, is sorted by
    date, newest first.  It is strictly so when its dates do not repeat:
    always when the update has merged a prior series, and, for a read or
    for an update without a prior series, when the rows read or fetched
    have unique dates. *)
Theorem series_are_descending stock_code w (prior : option DataFrame) old new :
  (∀ df, (read_local_stock_data stock_code w).1 = Returned (Some df) →
         descending df ∧ (NoDup (index df) → strictly_descending df))
  ∧ descending (merge prior new)
  ∧ strictly_descending (merge (Some old) new)
  ∧ (NoDup (index new) → strictly_descending (merge None new)).
Proof.
  split; [|split; [|split]].
  - intros df. rewrite read_local_stock_data_run.
    destruct (files w !! csv_path stock_code) as [text|]; [|done].
    destruct (obind (read_csv text) parse_dates) as [df0|e]; [|done].
    simpl. intros [= <-]. split; [apply sort_index_descending|].
    apply descending_NoDup_strict, sort_index_descending.
  - apply merge_descending.
  - apply merge_Some_strict.
  - apply sort_index_strict.
Qed.

(** C4 as stated fails: a file that repeats a date is read as a series
    that is not strictly descending, and so is the series an update builds
    from a fetch that repeats a date when there is no prior series. *)
Lemma repeated_date_not_strictly_descending :
  (∃ df, (read_local_stock_data "ZTEST" Samples.w_repeated).1 = Returned (Some df)
         ∧ ¬ strictly_descending df)
  ∧ ¬ strictly_descending (merge None [Samples.row3; Samples.row3']).
Proof.
  split.
  - eexists. split; [vm_compute; reflexivity|].
    intros H%strictly_descending_NoDup. simpl in H.
    apply NoDup_cons in H as [H _]. apply H, list_elem_of_here.
  - intros H%strictly_descending_NoDup. vm_compute in H.
    apply NoDup_cons in H as [H _]. apply H, list_elem_of_here.
Qed.




End order_claims.

(** * Further properties of the code *)

(** ** Splitting and joining text *)

Section text_facts.

Lemma app_assoc_string (s t u : string) : (s +:+ t) +:+ u = s +:+ (t +:+ u).
Proof. induction s as [|c s IH]; [done|]. by rewrite !app_String, IH. Qed.

Lemma has_char_app c s t : has_char c (s +:+ t) = has_char c s || has_char c t.
Proof.
  induction s as [|a s IH]; [done|].
  rewrite app_String. simpl. by rewrite IH, orb_assoc.
Qed.

Lemma split_on_ne_nil sep s : split_on sep s ≠ [].
Proof.
  destruct s as [|c s]; simpl; [done|].
  destruct (decide (c = sep)); [done|]. by destruct (split_on sep s).
Qed.

(** A text without the separator is one field. *)
Lemma split_on_clean sep s : has_char sep s = false → split_on sep s = [s].
Proof.
  induction s as [|c s IH]; simpl; [done|].
  intros [Hc Hs]%orb_false_iff. apply bool_decide_eq_false in Hc.
  destruct (decide (c = sep)); [done|]. by rewrite IH.
Qed.

(** The first field ends at the first separator. *)
Lemma split_on_app sep s t :
  has_char sep s = false →
  split_on sep (s +:+ String sep t) = s :: split_on sep t.
Proof.
  induction s as [|c s IH]; intros Hs.
  - rewrite app_EmptyString. simpl. by destruct (decide (sep = sep)).
  - simpl in Hs. apply orb_false_iff in Hs as [Hc Hs].
    apply bool_decide_eq_false in Hc.
    rewrite app_String. simpl.
    destruct (decide (c = sep)); [done|]. by rewrite IH.
Qed.

(** No field holds the separator, and a field holds no character that the
    text does not hold. *)
Lemma split_on_fields sep c s f :
  f ∈ split_on sep s →
  has_char sep f = false ∧ (has_char c s = false → has_char c f = false).
Proof.
  revert f. induction s as [|a s IH]; simpl; intros f.
  - intros ->%list_elem_of_singleton. done.
  - destruct (decide (a = sep)) as [->|Hne].
    + intros [->|Hf]%elem_of_cons; [done|].
      destruct (IH f Hf) as [H1 H2]. split; [done|].
      intros [_ Hs]%orb_false_iff. auto.
    + pose proof (split_on_ne_nil sep s) as Hnil.
      destruct (split_on sep s) as [|f0 fs]; [done|].
      intros [->|Hf]%elem_of_cons.
      * destruct (IH f0) as [H1 H2]; [left|]. simpl. split.
        -- rewrite H1. by rewrite bool_decide_eq_false_2.
        -- intros [Ha Hs]%orb_false_iff. rewrite Ha. simpl. auto.
      * destruct (IH f) as [H1 H2]; [by right|]. split; [done|].
        intros [_ Hs]%orb_false_iff. auto.
Qed.

(** The lines of a text made of newline-ended lines. *)
Lemma split_on_lines (lines : list string) :
  Forall (λ l, has_char "010"%char l = false) lines →
  split_on "010"%char (String.concat "" (map (λ l, l +:+ newline) lines))
  = lines ++ [""].
Proof.
  induction 1 as [|l lines Hl Hall IH]; [done|].
  destruct lines as [|l' lines].
  - simpl. unfold newline. by rewrite split_on_app.
  - change (String.concat "" (map (λ l, l +:+ newline) (l :: l' :: lines)))
      with ((l +:+ newline) +:+ "" +:+
            String.concat "" (map (λ l, l +:+ newline) (l' :: lines))).
    unfold newline at 1.
    rewrite app_assoc_string, app_String, !app_EmptyString.
    rewrite split_on_app by done. by rewrite IH.
Qed.

End text_facts.

(** ** Writing a frame and reading it back *)

Section round_trip_facts.

Implicit Types (df : DataFrame) (r : Row) (d : Timestamp).

Lemma digit_char_ne c n : is_digit c = false → digit_char n ≠ c.
Proof. intros Hc <-. by rewrite is_digit_digit_char in Hc. Qed.

Lemma strftime_date_has_no c d :
  is_digit c = false → c ≠ "-"%char → has_char c (strftime_date d) = false.
Proof.
  intros Hc Hdash. unfold strftime_date, four_digits, two_digits.
  rewrite !app_String, !app_EmptyString. cbn [has_char].
  rewrite !(bool_decide_eq_false_2 (digit_char _ = c)) by by apply digit_char_ne.
  by rewrite !(bool_decide_eq_false_2 ("-"%char = c)) by done.
Qed.

Lemma clean_row_cells r :
  clean_row r = true →
  valid_date (Date r) = true
  ∧ Forall (λ s, has_char ","%char s = false ∧ has_char "010"%char s = false)
      [Open r; High r; Low r; Close r; Volume r].
Proof.
  unfold clean_row, clean_cell.
  rewrite !andb_true_iff, !negb_true_iff. intros H.
  split; [tauto|]. repeat constructor; tauto.
Qed.

Lemma csv_line_fields r :
  clean_row r = true → split_on ","%char (csv_line r) = csv_fields r.
Proof.
  intros [_ Hcells]%clean_row_cells.
  rewrite !Forall_cons in Hcells.
  destruct Hcells as ([Ho _] & [Hh _] & [Hl _] & [Hc _] & [Hv _] & _).
  unfold csv_line, csv_fields. cbn [join].
  change ","%string with (String ","%char "").
  rewrite !app_String, !app_EmptyString.
  rewrite !split_on_app by (done || by apply strftime_date_has_no).
  by rewrite split_on_clean.
Qed.

Lemma csv_line_one_line r :
  clean_row r = true → has_char "010"%char (csv_line r) = false.
Proof.
  intros [_ Hcells]%clean_row_cells.
  rewrite !Forall_cons in Hcells.
  destruct Hcells as ([_ Ho] & [_ Hh] & [_ Hl] & [_ Hc] & [_ Hv] & _).
  unfold csv_line. cbn [join]. rewrite !has_char_app.
  rewrite strftime_date_has_no by done.
  by rewrite Ho, Hh, Hl, Hc, Hv.
Qed.

Lemma csv_line_not_empty r : csv_line r ≠ "".
Proof.
  unfold csv_line, strftime_date, four_digits. cbn [join].
  by rewrite !app_String.
Qed.

Lemma filter_not_empty_lines (lines : list string) :
  Forall (λ l, l ≠ "") lines →
  filter (λ l, l ≠ "") (lines ++ [""]) = lines.
Proof.
  induction 1 as [|l lines Hl Hall IH]; [done|].
  simpl. rewrite filter_cons_True by done. by rewrite IH.
Qed.

Lemma map_outcome_Returned {A B} (f : A → Outcome B) (g : A → B) (l : list A) :
  Forall (λ x, f x = Returned (g x)) l → map_outcome f l = Returned (map g l).
Proof.
  induction 1 as [|x l Hx Hall IH]; [done|]. simpl. by rewrite Hx, IH.
Qed.

Lemma map_outcome_inv {A B} (f : A → Outcome B) (l : list A) (ys : list B) :
  map_outcome f l = Returned ys → Forall2 (λ x y, f x = Returned y) l ys.
Proof.
  revert ys. induction l as [|x l IH]; simpl; intros ys.
  - intros [= <-]. constructor.
  - destruct (f x) as [y|e] eqn:Ey; simpl; [|done].
    destruct (map_outcome f l) as [ys'|e]; simpl; [|done].
    intros [= <-]. constructor; [done | by apply IH].
Qed.

#[local] Arguments csv_line : simpl never.
#[local] Arguments csv_fields : simpl never.
#[local] Arguments split_on : simpl never.
#[local] Arguments strftime_date : simpl never.
#[local] Arguments to_datetime : simpl never.

Lemma tokenize_lines df (cols : list string) :
  length cols = 6 →
  Forall (λ r, clean_row r = true) df →
  map_outcome (λ l, let fields := split_on ","%char l in
                    if bool_decide (length fields ≤ length cols)
                    then Returned fields
                    else Raised (Exc "Error tokenizing data"))
    (map csv_line df)
  = Returned (map csv_fields df).
Proof.
  intros Hcols. induction 1 as [|r df Hr Hall IH]; [done|].
  cbv zeta in *. cbn [map map_outcome]. rewrite IH, csv_line_fields by done.
  by rewrite bool_decide_eq_true_2 by (rewrite Hcols; done).
Qed.

(** What [read_csv] makes of the text of a frame of clean rows. *)
Lemma read_csv_to_csv df :
  Forall (λ r, clean_row r = true) df →
  read_csv (to_csv df)
  = Returned (mkTable ["Date"; "Open"; "High"; "Low"; "Close"; "Volume"]
                (map csv_fields df)).
Proof.
  intros Hclean. unfold read_csv, to_csv.
  rewrite split_on_lines.
  2:{ constructor; [done|]. apply Forall_fmap.
      eapply Forall_impl; [done|]. intros r. apply csv_line_one_line. }
  rewrite filter_not_empty_lines.
  2:{ constructor; [done|]. apply Forall_fmap, Forall_forall.
      intros r _. apply csv_line_not_empty. }
  change (split_on ","%char csv_header)
    with ["Date"; "Open"; "High"; "Low"; "Close"; "Volume"].
  cbv zeta. by rewrite tokenize_lines.
Qed.

Lemma parse_dates_csv_fields df :
  Forall (λ r, clean_row r = true) df →
  parse_dates (mkTable ["Date"; "Open"; "High"; "Low"; "Close"; "Volume"]
                 (map csv_fields df))
  = Returned df.
Proof.
  intros Hclean. unfold parse_dates.
  change (label_pos "Date" _) with (Some 0). cbn [columns records].
  induction Hclean as [|r df Hr Hall IH]; [done|].
  cbn [map map_outcome]. rewrite IH.
  change (get_cell ["Date"; "Open"; "High"; "Low"; "Close"; "Volume"] "Date"
            (csv_fields r)) with (strftime_date (Date r)).
  apply clean_row_cells in Hr as [Hvalid _].
  rewrite to_datetime_strftime_date by done.
  by destruct r.
Qed.

End round_trip_facts.

(** ** What a parsed file holds *)

Section parsed_facts.

Implicit Types (df : DataFrame) (r : Row) (d : Timestamp).

(** [to_datetime] returns dates of the calendar only. *)
Lemma to_datetime_valid s d : to_datetime s = Returned d → valid_date d = true.
Proof.
  unfold to_datetime. repeat case_match; try done.
  intros [= <-].
  match goal with
  | H : _ && valid_date _ = true |- _ => by apply andb_true_iff in H as [_ ?]
  end.
Qed.

Lemma clean_cell_fields line f :
  has_char "010"%char line = false →
  f ∈ split_on ","%char line → clean_cell f = true.
Proof.
  intros Hline Hf. unfold clean_cell.
  destruct (split_on_fields ","%char "010"%char line f Hf) as [H1 H2].
  by rewrite H1, H2.
Qed.

Lemma clean_cell_nth (rec : list cell) i :
  Forall (λ f, clean_cell f = true) rec → clean_cell (nth i rec "") = true.
Proof.
  intros Hrec. revert i. induction Hrec as [|f rec Hf Hrec IH]; intros [|i]; simpl; auto.
Qed.

Lemma clean_cell_get_cell cols name (rec : list cell) :
  Forall (λ f, clean_cell f = true) rec → clean_cell (get_cell cols name rec) = true.
Proof.
  intros Hrec. unfold get_cell. destruct (label_pos name cols); [|done].
  by apply clean_cell_nth.
Qed.

(** Every cell [read_csv] hands over is clean. *)
Lemma read_csv_clean text t :
  read_csv text = Returned t →
  Forall (Forall (λ f, clean_cell f = true)) (records t).
Proof.
  unfold read_csv.
  destruct (filter (λ l, l ≠ "") (split_on "010"%char text))
    as [|header lines] eqn:Elines; [done|].
  assert (Forall (λ l, has_char "010"%char l = false) lines) as Hlines.
  { apply Forall_forall. intros l Hl.
    assert (l ∈ filter (λ l, l ≠ "") (split_on "010"%char text)) as Hin
      by (rewrite Elines; by right).
    apply list_elem_of_filter in Hin as [_ Hin].
    by destruct (split_on_fields "010"%char "010"%char text l Hin). }
  cbv zeta.
  destruct (map_outcome _ lines) as [recs|e] eqn:Erecs; simpl; [|done].
  intros [= <-]. simpl.
  apply map_outcome_inv in Erecs. clear Elines.
  induction Erecs as [|l rec lines recs Hl Hrecs IH]; [constructor|].
  apply Forall_cons in Hlines as [Hline Hlines].
  constructor; [|by apply IH].
  simpl in Hl. case_bool_decide; [|done]. injection Hl as <-.
  apply Forall_forall. intros f Hf. by apply (clean_cell_fields l).
Qed.

(** The rows of a file that parses are clean rows. *)
Lemma parsed_rows_clean text df :
  obind (read_csv text) parse_dates = Returned df →
  Forall (λ r, clean_row r = true) df.
Proof.
  destruct (read_csv text) as [t|e] eqn:Et; simpl; [|done].
  apply read_csv_clean in Et. unfold parse_dates.
  destruct (label_pos "Date" (columns t)); [|done].
  intros Hrows%map_outcome_inv. revert Et.
  induction Hrows as [|rec r recs df Hr Hrows IH]; intros Hclean; [constructor|].
  apply Forall_cons in Hclean as [Hrec Hclean].
  constructor; [|by apply IH].
  destruct (to_datetime (get_cell (columns t) "Date" rec)) as [d|e] eqn:Ed;
    simpl in Hr; [|done].
  injection Hr as <-. unfold clean_row, row_of. simpl.
  rewrite (to_datetime_valid _ _ Ed).
  by rewrite !clean_cell_get_cell.
Qed.

(** Sorting and dropping duplicates keep rows clean. *)
Lemma merge_clean (prior : option DataFrame) new :
  (∀ old, prior = Some old → Forall (λ r, clean_row r = true) old) →
  Forall (λ r, clean_row r = true) new →
  Forall (λ r, clean_row r = true) (merge prior new).
Proof.
  intros Hold Hnew. apply Forall_forall. intros r Hr.
  unfold merge in Hr. rewrite elem_of_sort_index in Hr.
  destruct prior as [old|].
  - unfold df_combined_of in Hr.
    apply drop_duplicated_sub in Hr. unfold pd_concat in Hr.
    apply elem_of_app in Hr as [Hr|Hr].
    + specialize (Hold old eq_refl). rewrite Forall_forall in Hold. auto.
    + rewrite Forall_forall in Hnew. auto.
  - rewrite Forall_forall in Hnew. auto.
Qed.

End parsed_facts.

(** ** Reading what was written *)

Section read_back.

Implicit Types (df old new : DataFrame) (r : Row) (d : Timestamp).

(** Sorting changes nothing in a frame that is sorted and repeats no
    date. *)
Lemma sort_index_fixed df :
  descending df → NoDup (index df) → sort_index df = df.
Proof.
  intros Hsorted Hnd.
  apply (StronglySorted_unique_strong row_ge);
    [|apply sort_index_descending | exact Hsorted | apply sort_index_Permutation].
  intros r1 r2 Hr1 Hr2 H12 H21. rewrite elem_of_sort_index in Hr1.
  apply (same_date_same_row df); [done..|].
  unfold row_ge in *. by apply ts_le_antisym.
Qed.

Lemma merge_unique (prior : option DataFrame) new :
  is_Some prior ∨ NoDup (index new) → NoDup (index (merge prior new)).
Proof.
  intros [[old ->]|Hnd]; [apply NoDup_index_merge_Some|].
  destruct prior as [old|]; [apply NoDup_index_merge_Some|].
  unfold merge. by rewrite index_sort_index.
Qed.

Lemma sort_index_merge (prior : option DataFrame) new :
  is_Some prior ∨ NoDup (index new) →
  sort_index (merge prior new) = merge prior new.
Proof.
  intros H. apply sort_index_fixed; [apply merge_descending | by apply merge_unique].
Qed.

(** The read of a file that holds the text of a frame of clean rows. *)
Lemma read_local_stock_data_of_to_csv symbol df w :
  files w !! csv_path symbol = Some (to_csv df) →
  Forall (λ r, clean_row r = true) df →
  read_local_stock_data symbol w = (Returned (Some (sort_index df)), w).
Proof.
  intros Hfile Hclean. rewrite read_local_stock_data_run, Hfile.
  rewrite read_csv_to_csv by done. cbn [obind].
  by rewrite parse_dates_csv_fields.
Qed.

Lemma prior_series_of_to_csv df :
  Forall (λ r, clean_row r = true) df → prior_series (Some (to_csv df)) = Some df.
Proof.
  intros Hclean. unfold prior_series.
  rewrite read_csv_to_csv by done. cbn [obind].
  by rewrite parse_dates_csv_fields.
Qed.

Lemma prior_series_clean text old :
  prior_series text = Some old → Forall (λ r, clean_row r = true) old.
Proof.
  unfold prior_series. destruct text as [text|]; [|done].
  destruct (obind (read_csv text) parse_dates) as [df|e] eqn:E; [|done].
  intros [= <-]. by apply (parsed_rows_clean text).
Qed.

(** X1.  Writing a frame of clean rows with [save_dataframe_to_csv] and
    reading the symbol back with [read_local_stock_data] gives the rows
    that were written, newest first: the same rows in some descending
    order, and the very same frame when it was descending without a
    repeated date. *)
Theorem save_then_read_gives_frame_back env df symbol w :
  Forall (λ r, clean_row r = true) df →
  (save_dataframe_to_csv env df (csv_path symbol) w).1 = Returned () →
  let w' := (save_dataframe_to_csv env df (csv_path symbol) w).2 in
  read_local_stock_data symbol w' = (Returned (Some (sort_index df)), w')
  ∧ sort_index df ≡ₚ df
  ∧ (descending df → NoDup (index df) → sort_index df = df).
Proof.
  intros Hclean Hsave. simpl. split; [|split].
  - apply read_local_stock_data_of_to_csv; [|done].
    rewrite save_dataframe_to_csv_run in *.
    destruct (save_fault env); [done|]. simpl. by rewrite lookup_insert_eq.
  - apply sort_index_Permutation.
  - apply sort_index_fixed.
Qed.

Lemma save_then_read_gives_frame_back_witness :
  Forall (λ r, clean_row r = true) [Samples.row3; Samples.row2; Samples.row1]
  ∧ (save_dataframe_to_csv Samples.env_first
       [Samples.row3; Samples.row2; Samples.row1] (csv_path "ZTEST")
       Samples.w_fresh).1 = Returned ()
  ∧ (let w' := (save_dataframe_to_csv Samples.env_first
                  [Samples.row3; Samples.row2; Samples.row1] (csv_path "ZTEST")
                  Samples.w_fresh).2 in
     read_local_stock_data "ZTEST" w'
     = (Returned (Some (sort_index [Samples.row3; Samples.row2; Samples.row1])), w')
     ∧ sort_index [Samples.row3; Samples.row2; Samples.row1]
       ≡ₚ [Samples.row3; Samples.row2; Samples.row1]
     ∧ (descending [Samples.row3; Samples.row2; Samples.row1] →
        NoDup (index [Samples.row3; Samples.row2; Samples.row1]) →
        sort_index [Samples.row3; Samples.row2; Samples.row1]
        = [Samples.row3; Samples.row2; Samples.row1])).
Proof.
  assert (Forall (λ r, clean_row r = true)
            [Samples.row3; Samples.row2; Samples.row1]) as Hclean
    by (repeat constructor).
  split; [exact Hclean|]. split; [vm_compute; reflexivity|].
  apply (save_then_read_gives_frame_back Samples.env_first
           [Samples.row3; Samples.row2; Samples.row1] "ZTEST" Samples.w_fresh);
    [exact Hclean | vm_compute; reflexivity].
Defined.

(** X2.  After a successful update whose fetched rows are clean, reading
    the symbol with [get_local_stock_data] succeeds and returns the series
    the update wrote: the same rows newest first, and the very same frame
    when the update merged a prior series or the fetched dates are
    unique. *)
Theorem update_then_read_gives_written_series env args symbol start_date w res new :
  args !! "symbol" = Some (PStr symbol) →
  (update_stock_data env symbol start_date w).1 = Returned res →
  res !! "status" = Some (PStr "success") →
  normalized (history env symbol start_date (today env)) = Returned (Some new) →
  Forall (λ r, clean_row r = true) new →
  let w' := (update_stock_data env symbol start_date w).2 in
  let written := merge (prior_series (files w !! csv_path symbol)) new in
  files w' !! csv_path symbol = Some (to_csv written)
  ∧ get_local_stock_data args w'
    = (Returned (result_data "success"
         ("Successfully retrieved historical data for " +:+ symbol)
         (PFrame (sort_index written))), w')
  ∧ sort_index written ≡ₚ written
  ∧ (is_Some (prior_series (files w !! csv_path symbol)) ∨ NoDup (index new) →
     sort_index written = written).
Proof.
  intros Hargs Hrun Hs Hnew Hclean. simpl.
  destruct (update_stock_data_success env symbol start_date w res Hrun Hs)
    as (new' & Hnew' & Hfiles).
  rewrite Hnew in Hnew'. injection Hnew' as <-.
  assert (files (update_stock_data env symbol start_date w).2 !! csv_path symbol
          = Some (to_csv (merge (prior_series (files w !! csv_path symbol)) new)))
    as Hfile by (by rewrite Hfiles, lookup_insert_eq).
  split; [done|]. split; [|split].
  - rewrite get_local_stock_data_run, Hargs.
    rewrite (read_local_stock_data_of_to_csv symbol _ _ Hfile); [done|].
    apply merge_clean; [|done]. intros old Hold. by apply prior_series_clean in Hold.
  - apply sort_index_Permutation.
  - apply sort_index_merge.
Qed.

(** A second update of ZTEST, over the file the first one left. *)
Lemma update_then_read_gives_written_series_witness :
  Samples.args_of "ZTEST" !! "symbol" = Some (PStr "ZTEST")
  ∧ (update_stock_data Samples.env_later "ZTEST" "2015-01-01" Samples.w_ztest).1
    = Returned (result "success" "Successfully updated data for ZTEST")
  ∧ result "success" "Successfully updated data for ZTEST" !! "status"
    = Some (PStr "success")
  ∧ normalized (history Samples.env_later "ZTEST" "2015-01-01"
                  (today Samples.env_later))
    = Returned (Some [Samples.row3'; Samples.row4])
  ∧ Forall (λ r, clean_row r = true) [Samples.row3'; Samples.row4]
  ∧ (let w' := (update_stock_data Samples.env_later "ZTEST" "2015-01-01"
                  Samples.w_ztest).2 in
     let written :=
       merge (prior_series (files Samples.w_ztest !! csv_path "ZTEST"))
         [Samples.row3'; Samples.row4] in
     files w' !! csv_path "ZTEST" = Some (to_csv written)
     ∧ get_local_stock_data (Samples.args_of "ZTEST") w'
       = (Returned (result_data "success"
            ("Successfully retrieved historical data for " +:+ "ZTEST")
            (PFrame (sort_index written))), w')
     ∧ sort_index written ≡ₚ written
     ∧ (is_Some (prior_series (files Samples.w_ztest !! csv_path "ZTEST"))
        ∨ NoDup (index [Samples.row3'; Samples.row4]) →
        sort_index written = written)).
Proof.
  assert (Forall (λ r, clean_row r = true) [Samples.row3'; Samples.row4])
    as Hclean by (repeat constructor).
  split; [vm_compute; reflexivity|].
  split; [vm_compute; reflexivity|].
  split; [vm_compute; reflexivity|].
  split; [vm_compute; reflexivity|].
  split; [exact Hclean|].
  apply (update_then_read_gives_written_series Samples.env_later
           (Samples.args_of "ZTEST") "ZTEST" "2015-01-01" Samples.w_ztest
           (result "success" "Successfully updated data for ZTEST")
           [Samples.row3'; Samples.row4]);
    try exact Hclean; vm_compute; reflexivity.
Defined.

End read_back.

(** ** The tools: arguments, cooldown, reads *)

Section tool_facts.

Lemma get_historical_data_run symbol w :
  get_historical_data symbol w =
  match read_local_stock_data symbol w with
  | (Returned (Some data), w') =>
      (Returned (result_data "success"
         ("Successfully retrieved historical data for " +:+ symbol)
         (PFrame data)), w')
  | (_, w') =>
      (Returned (result_data "error"
         ("Data not found for symbol " +:+ symbol) PEmptyList), w')
  end.
Proof.
  unfold get_historical_data, bind, try_except, ret. simpl.
  rewrite read_local_stock_data_run.
  destruct (files w !! csv_path symbol) as [text|]; [|done].
  by destruct (obind (read_csv text) parse_dates).
Qed.

Lemma update_stock_data_slept env symbol start_date w :
  slept (update_stock_data env symbol start_date w).2 = slept w.
Proof. by destruct (update_stock_data_run env symbol start_date w) as [H _]. Qed.

(** X3.  [update_stock_data_tool] sleeps its five seconds exactly when the
    update succeeded: after a successful call the time slept has grown by
    5, after any failed call (arguments, fetch, write) it has not
    changed. *)
Theorem update_stock_data_tool_cooldown env args w :
  ∃ res,
    (update_stock_data_tool env args w).1 = Returned res
    ∧ slept (update_stock_data_tool env args w).2 =
      (if bool_decide (res !! "status" = Some (PStr "success"))
       then slept w + 5 else slept w).
Proof.
  rewrite update_stock_data_tool_run.
  assert (∀ message,
    bool_decide (result "error" message !! "status" = Some (PStr "success"))
    = false) as Herr
    by (intros; rewrite result_status; by apply bool_decide_eq_false_2).
  destruct (args !! "symbol") as [[symbol| | | |]|];
    try (eexists; split; [done|]; by rewrite Herr).
  assert (∀ start_date,
    ∃ res,
      (match update_stock_data env symbol start_date w with
       | (Returned result, w') =>
           if bool_decide (result !! "status" = Some (PStr "error"))
           then (Returned result, w')
           else (Returned result,
                 mkWorld (files w') (stderr w') (slept w' + 5))
       | (Raised e, w') =>
           (Returned (Server.result "error"
              ("Error updating data: " +:+ str e)), w')
       end).1 = Returned res
      ∧ slept (match update_stock_data env symbol start_date w with
               | (Returned result, w') =>
                   if bool_decide (result !! "status" = Some (PStr "error"))
                   then (Returned result, w')
                   else (Returned result,
                         mkWorld (files w') (stderr w') (slept w' + 5))
               | (Raised e, w') =>
                   (Returned (Server.result "error"
                      ("Error updating data: " +:+ str e)), w')
               end).2 =
        (if bool_decide (res !! "status" = Some (PStr "success"))
         then slept w + 5 else slept w)) as Hcall.
  { intros start_date.
    destruct (update_stock_data_returns env symbol start_date w)
      as (status & message & Hs & Hrun).
    pose proof (update_stock_data_slept env symbol start_date w) as Hslept.
    destruct (update_stock_data env symbol start_date w) as [[d|e] w'];
      simpl in Hrun, Hslept; [|done].
    injection Hrun as ->. exists (result status message).
    rewrite !result_status. destruct Hs as [-> | ->].
    - rewrite bool_decide_eq_false_2 by done.
      rewrite bool_decide_eq_true_2 by done. simpl. by rewrite Hslept.
    - rewrite bool_decide_eq_true_2 by done.
      rewrite bool_decide_eq_false_2 by done. done. }
  destruct (args !! "start_date") as [[start| | | |]|];
    try (eexists; split; [done|]; by rewrite Herr);
    apply Hcall.
Qed.

(** X4.  Arguments without a string under "symbol" stop both tools before
    anything happens: each returns an error result whose message starts
    with its own prefix, and the world (files, error stream, time slept)
    is exactly as it was.  So does a "start_date" that is not a string,
    for the update tool. *)
Theorem invalid_arguments_change_nothing env args w :
  ((∀ symbol, args !! "symbol" ≠ Some (PStr symbol)) →
   (∃ detail,
      get_local_stock_data args w
      = (Returned (result_data "error" ("Error retrieving data: " +:+ detail)
                     PEmptyList), w))
   ∧ (∃ detail,
        update_stock_data_tool env args w
        = (Returned (result "error" ("Error updating data: " +:+ detail)), w)))
  ∧ ((∃ symbol, args !! "symbol" = Some (PStr symbol)) →
     is_Some (args !! "start_date") →
     (∀ start_date, args !! "start_date" ≠ Some (PStr start_date)) →
     ∃ detail,
       update_stock_data_tool env args w
       = (Returned (result "error" ("Error updating data: " +:+ detail)), w)).
Proof.
  split.
  - intros Hsym. rewrite get_local_stock_data_run, update_stock_data_tool_run.
    destruct (args !! "symbol") as [[symbol| | | |]|];
      [by destruct (Hsym symbol) | eauto..].
  - intros [symbol Hsym] [v Hv] Hstart.
    rewrite update_stock_data_tool_run, Hsym, Hv.
    destruct v as [start| | | |]; [by destruct (Hstart start) | eauto..].
Qed.

Lemma invalid_arguments_change_nothing_witness :
  (∃ detail,
     get_local_stock_data {[ "symbol" := PInt 7 ]} Samples.w_ztest
     = (Returned (result_data "error" ("Error retrieving data: " +:+ detail)
                    PEmptyList), Samples.w_ztest))
  ∧ (∃ detail,
       update_stock_data_tool Samples.env_later
         {[ "symbol" := PStr "ZTEST"; "start_date" := PNone ]} Samples.w_ztest
       = (Returned (result "error" ("Error updating data: " +:+ detail)),
          Samples.w_ztest)).
Proof.
  split.
  - apply (invalid_arguments_change_nothing Samples.env_later
             {[ "symbol" := PInt 7 ]} Samples.w_ztest).
    intros symbol. vm_compute. discriminate.
  - apply (invalid_arguments_change_nothing Samples.env_later
             {[ "symbol" := PStr "ZTEST"; "start_date" := PNone ]}
             Samples.w_ztest).
    + exists "ZTEST". vm_compute; reflexivity.
    + exists PNone. vm_compute; reflexivity.
    + intros start_date. vm_compute. discriminate.
Defined.

(** X5.  A call of [update_stock_data_tool] without "start_date" is the
    call with "start_date" set to "2015-01-01". *)
Theorem update_stock_data_tool_default_start_date env args w :
  args !! "start_date" = None →
  update_stock_data_tool env args w
  = update_stock_data_tool env (<["start_date" := PStr "2015-01-01"]> args) w.
Proof.
  intros Hnone. rewrite !update_stock_data_tool_run.
  rewrite lookup_insert_ne by done. rewrite lookup_insert_eq, Hnone.
  by destruct (args !! "symbol") as [[symbol| | | |]|].
Qed.

Lemma update_stock_data_tool_default_start_date_witness :
  Samples.args_of "ZTEST" !! "start_date" = None
  ∧ update_stock_data_tool Samples.env_first (Samples.args_of "ZTEST") Samples.w_fresh
    = update_stock_data_tool Samples.env_first
        (<["start_date" := PStr "2015-01-01"]> (Samples.args_of "ZTEST"))
        Samples.w_fresh.
Proof.
  split; [vm_compute; reflexivity|].
  apply (update_stock_data_tool_default_start_date Samples.env_first
           (Samples.args_of "ZTEST") Samples.w_fresh).
  vm_compute; reflexivity.
Defined.

(** X6.  The resource [get_historical_data] and the tool
    [get_local_stock_data] answer alike: for arguments that carry the
    symbol as a string, the two return the same result and leave the same
    world. *)
Theorem get_historical_data_as_tool args symbol w :
  args !! "symbol" = Some (PStr symbol) →
  get_historical_data symbol w = get_local_stock_data args w.
Proof.
  intros Hargs. by rewrite get_historical_data_run, get_local_stock_data_run, Hargs.
Qed.

Lemma get_historical_data_as_tool_witness :
  Samples.args_of "ZTEST" !! "symbol" = Some (PStr "ZTEST")
  ∧ get_historical_data "ZTEST" Samples.w_ztest
    = get_local_stock_data (Samples.args_of "ZTEST") Samples.w_ztest.
Proof.
  split; [vm_compute; reflexivity|].
  apply (get_historical_data_as_tool (Samples.args_of "ZTEST") "ZTEST"
           Samples.w_ztest).
  vm_compute; reflexivity.
Defined.

(** X7.  Reading never writes: [read_local_stock_data], the tool
    [get_local_stock_data] and the resource [get_historical_data] return
    without raising and leave every file and the time slept as they were,
    whatever the arguments and whatever the files hold. *)
Theorem reads_leave_files_alone args symbol w :
  (∃ data, (read_local_stock_data symbol w).1 = Returned data)
  ∧ files (read_local_stock_data symbol w).2 = files w
  ∧ slept (read_local_stock_data symbol w).2 = slept w
  ∧ files (get_local_stock_data args w).2 = files w
  ∧ slept (get_local_stock_data args w).2 = slept w
  ∧ files (get_historical_data symbol w).2 = files w
  ∧ slept (get_historical_data symbol w).2 = slept w.
Proof.
  assert (∀ s,
    (∃ data, (read_local_stock_data s w).1 = Returned data)
    ∧ files (read_local_stock_data s w).2 = files w
    ∧ slept (read_local_stock_data s w).2 = slept w) as Hread.
  { intros s. rewrite read_local_stock_data_run.
    destruct (files w !! csv_path s) as [text|]; [|eauto].
    destruct (obind (read_csv text) parse_dates); eauto. }
  destruct (Hread symbol) as (Hret & Hf & Hs).
  split; [done|]. split; [done|]. split; [done|].
  rewrite get_local_stock_data_run, get_historical_data_run.
  assert (∀ s,
    files (match read_local_stock_data s w with
           | (Returned (Some data), w') =>
               (Returned (result_data "success"
                  ("Successfully retrieved historical data for " +:+ s)
                  (PFrame data)), w')
           | (_, w') =>
               (Returned (result_data "error"
                  ("Data not found for symbol " +:+ s) PEmptyList), w')
           end).2 = files w
    ∧ slept (match read_local_stock_data s w with
             | (Returned (Some data), w') =>
                 (Returned (result_data "success"
                    ("Successfully retrieved historical data for " +:+ s)
                    (PFrame data)), w')
             | (_, w') =>
                 (Returned (result_data "error"
                    ("Data not found for symbol " +:+ s) PEmptyList), w')
             end).2 = slept w) as Hget.
  { intros s. destruct (Hread s) as (_ & Hf' & Hs').
    by destruct (read_local_stock_data s w) as [[[data|]|e] w']. }
  destruct (Hget symbol) as [Hg1 Hg2].
  destruct (args !! "symbol") as [[s| | | |]|]; try done.
  destruct (Hget s) as [Hg3 Hg4]. done.
Qed.

End tool_facts.

(** ** Updating again *)

Section repeat_facts.

Implicit Types (df old new : DataFrame) (r : Row) (d : Timestamp).

(** In a frame without a repeated date every row is the last of its
    date. *)
Lemma last_with_date_unique df r :
  NoDup (index df) → last_with_date (Date r) df = Some r ↔ r ∈ df.
Proof.
  intros Hnd. split; [by intros [_ ?]%last_with_date_Some|].
  intros Hr.
  destruct (last_with_date_is_Some (Date r) df) as [r' Hr'];
    [by apply list_elem_of_fmap_2|].
  pose proof (last_with_date_Some _ _ _ Hr') as [Hd Hin].
  rewrite Hr'. f_equal. by apply (same_date_same_row df).
Qed.

(** Of a fetched date the merged series has the last fetched row. *)
Lemma elem_of_merge_fetched (prior : option DataFrame) new r r' :
  is_Some prior ∨ NoDup (index new) →
  last_with_date (Date r) new = Some r' →
  r ∈ merge prior new ↔ r' = r.
Proof.
  intros Hu Hlast. destruct prior as [old|].
  - rewrite elem_of_merge_Some, last_with_date_app, Hlast.
    split; [by intros [= ->] | by intros ->].
  - destruct Hu as [[? [=]]|Hnd]. unfold merge.
    rewrite elem_of_sort_index, <- last_with_date_unique by done.
    rewrite Hlast. split; [by intros [= ->] | by intros ->].
Qed.

(** Two descending frames without a repeated date that hold the same rows
    are the same frame. *)
Lemma descending_unique df1 df2 :
  descending df1 → descending df2 →
  NoDup (index df1) → NoDup (index df2) →
  (∀ r, r ∈ df1 ↔ r ∈ df2) → df1 = df2.
Proof.
  intros H1 H2 Hnd1 Hnd2 Hel.
  apply (StronglySorted_unique_strong row_ge); [|exact H1|exact H2|].
  - intros r1 r2 Hr1 Hr2 H12 H21. apply Hel in Hr1.
    apply (same_date_same_row df2); [done..|].
    unfold row_ge in *. by apply ts_le_antisym.
  - apply NoDup_Permutation; [by apply (NoDup_fmap_1 Date)..|done].
Qed.

(** Merging the same fetch into what the merge gave changes nothing. *)
Lemma merge_again (prior : option DataFrame) new :
  is_Some prior ∨ NoDup (index new) →
  merge (Some (merge prior new)) new = merge prior new.
Proof.
  intros Hu. apply descending_unique.
  - apply merge_descending.
  - apply merge_descending.
  - apply NoDup_index_merge_Some.
  - by apply merge_unique.
  - intros r. rewrite elem_of_merge_Some, last_with_date_app.
    destruct (last_with_date (Date r) new) as [r'|] eqn:E.
    + rewrite (elem_of_merge_fetched prior new r r') by done.
      split; [by intros [= ->] | by intros ->].
    + apply last_with_date_unique. by apply merge_unique.
Qed.

(** X8.  Updating again with the same fetch changes nothing: after a
    successful [update_stock_data] of clean fetched rows (into a prior
    series, or of unique dates), the same update run again returns the
    same result and leaves every file as the first run left it. *)
Theorem update_stock_data_again_changes_nothing env symbol start_date w res new :
  (update_stock_data env symbol start_date w).1 = Returned res →
  res !! "status" = Some (PStr "success") →
  normalized (history env symbol start_date (today env)) = Returned (Some new) →
  Forall (λ r, clean_row r = true) new →
  is_Some (prior_series (files w !! csv_path symbol)) ∨ NoDup (index new) →
  temp_name env ≠ csv_path symbol →
  let w1 := (update_stock_data env symbol start_date w).2 in
  (update_stock_data env symbol start_date w1).1 = Returned res
  ∧ files (update_stock_data env symbol start_date w1).2 = files w1.
Proof.
  intros Hres Hstatus Hnorm Hclean Hu Htemp w1. subst w1.
  pose proof (update_stock_data_run env symbol start_date w) as [_ H].
  pose proof (update_stock_data_run env symbol start_date
                (update_stock_data env symbol start_date w).2) as [_ H'].
  simpl in H, H'. rewrite Hnorm in H, H'.
  destruct (save_fault env) as [e|].
  { destruct H as [H1 _]. rewrite H1 in Hres. injection Hres as <-.
    by rewrite result_status in Hstatus. }
  destruct H as [H1 H2]. destruct H' as [H1' H2'].
  split; [by rewrite H1', <- H1|].
  rewrite H2'. rewrite H2 at 1 2. rewrite lookup_insert_eq.
  rewrite prior_series_of_to_csv.
  - rewrite merge_again by done.
    rewrite delete_insert_ne by done.
    by rewrite delete_delete_eq, insert_insert_eq.
  - apply merge_clean; [|done]. intros old. apply prior_series_clean.
Qed.

Lemma update_stock_data_again_changes_nothing_witness :
  (update_stock_data Samples.env_later "ZTEST" "2015-01-01" Samples.w_ztest).1
    = Returned (result "success" "Successfully updated data for ZTEST")
  ∧ result "success" "Successfully updated data for ZTEST" !! "status"
    = Some (PStr "success")
  ∧ normalized (history Samples.env_later "ZTEST" "2015-01-01"
                  (today Samples.env_later))
    = Returned (Some [Samples.row3'; Samples.row4])
  ∧ Forall (λ r, clean_row r = true) [Samples.row3'; Samples.row4]
  ∧ (is_Some (prior_series (files Samples.w_ztest !! csv_path "ZTEST"))
     ∨ NoDup (index [Samples.row3'; Samples.row4]))
  ∧ temp_name Samples.env_later ≠ csv_path "ZTEST"
  ∧ (let w1 := (update_stock_data Samples.env_later "ZTEST" "2015-01-01"
                  Samples.w_ztest).2 in
     (update_stock_data Samples.env_later "ZTEST" "2015-01-01" w1).1
     = Returned (result "success" "Successfully updated data for ZTEST")
     ∧ files (update_stock_data Samples.env_later "ZTEST" "2015-01-01" w1).2
       = files w1).
Proof.
  assert (Forall (λ r, clean_row r = true) [Samples.row3'; Samples.row4])
    as Hclean by (repeat constructor).
  assert (is_Some (prior_series (files Samples.w_ztest !! csv_path "ZTEST"))
          ∨ NoDup (index [Samples.row3'; Samples.row4])) as Hu
    by (left; vm_compute; by eexists).
  assert (temp_name Samples.env_later ≠ csv_path "ZTEST") as Htemp
    by (vm_compute; discriminate).
  split; [vm_compute; reflexivity|].
  split; [vm_compute; reflexivity|].
  split; [vm_compute; reflexivity|].
  split; [exact Hclean|].
  split; [exact Hu|].
  split; [exact Htemp|].
  apply (update_stock_data_again_changes_nothing Samples.env_later "ZTEST"
           "2015-01-01" Samples.w_ztest
           (result "success" "Successfully updated data for ZTEST")
           [Samples.row3'; Samples.row4]);
    try exact Hclean; try exact Hu; try exact Htemp; vm_compute; reflexivity.
Defined.

End repeat_facts.

(** ** What an update prints, and how it fails *)

Section log_facts.

#[local] Arguments empty : simpl never.
#[local] Arguments select_keep_columns : simpl never.
#[local] Arguments capitalize_columns : simpl never.
#[local] Arguments read_csv : simpl never.
#[local] Arguments parse_dates : simpl never.
#[local] Arguments to_csv : simpl never.
#[local] Arguments sort_index : simpl never.
#[local] Arguments df_combined_of : simpl never.
#[local] Arguments csv_path : simpl never.
#[local] Arguments result : simpl never.
#[local] Arguments result_data : simpl never.
#[local] Arguments String.app : simpl never.

(** The lines [update_stock_data] adds to the error stream. *)
Lemma update_stock_data_log env symbol start_date w :
  let log0 :=
    (stderr w ++ ["Starting to update stock data for " +:+ symbol +:+ "..."])
    ++ ["Downloading " +:+ symbol +:+ " data from " +:+ start_date
        +:+ " to " +:+ today env] in
  stderr (update_stock_data env symbol start_date w).2 =
  match normalized (history env symbol start_date (today env)) with
  | Raised e =>
      log0 ++ ["Error updating data for " +:+ symbol +:+ ": " +:+ str e]
  | Returned None => log0
  | Returned (Some new) =>
      let log1 :=
        match files w !! csv_path symbol with
        | Some text =>
            match obind (read_csv text) parse_dates with
            | Returned _ => log0
            | Raised e => log0 ++ ["Error processing existing data: " +:+ str e]
            end
        | None => log0
        end in
      match save_fault env with
      | Some e => log1 ++ ["Error saving CSV file: " +:+ str e]
      | None => log1 ++ ["Successfully saved data to " +:+ csv_path symbol]
      end
  end.
Proof.
  unfold update_stock_data, normalized.
  unfold bind, try_except, raise, ret, lift, print_stderr, file_text, get_files.
  destruct (history env symbol start_date (today env)) as [fetched|e];
    simpl; [|done].
  destruct (empty fetched); simpl; [done|].
  destruct (select_keep_columns (capitalize_columns fetched)) as [new|e];
    simpl; [|done].
  destruct (files w !! csv_path symbol) as [text|]; simpl.
  - destruct (read_csv text) as [t|e]; simpl.
    + destruct (parse_dates t) as [old|e]; simpl;
        rewrite save_dataframe_to_csv_run; by destruct (save_fault env).
    + rewrite save_dataframe_to_csv_run; by destruct (save_fault env).
  - rewrite save_dataframe_to_csv_run; by destruct (save_fault env).
Qed.

(** X9.  A file that does not parse is replaced, not merged: when the
    symbol's file exists but cannot be read as a series, a successful
    update returns success, writes the fetched rows alone (sorted, none
    dropped) over it, and the parse error shows only as a line of the
    error stream. *)
Theorem update_stock_data_replaces_unparseable_file
    env symbol start_date w text e new :
  files w !! csv_path symbol = Some text →
  obind (read_csv text) parse_dates = Raised e →
  normalized (history env symbol start_date (today env)) = Returned (Some new) →
  save_fault env = None →
  let run := update_stock_data env symbol start_date w in
  run.1 = Returned (result "success" ("Successfully updated data for " +:+ symbol))
  ∧ files run.2 !! csv_path symbol = Some (to_csv (sort_index new))
  ∧ sort_index new ≡ₚ new
  ∧ ("Error processing existing data: " +:+ str e) ∈ stderr run.2.
Proof.
  intros Hfile Hparse Hnorm Hsave run. subst run.
  pose proof (update_stock_data_run env symbol start_date w) as [_ H].
  pose proof (update_stock_data_log env symbol start_date w) as Hlog.
  simpl in H, Hlog. rewrite Hnorm, Hsave in H, Hlog.
  rewrite Hfile in H, Hlog. rewrite Hparse in Hlog.
  unfold prior_series in H. rewrite Hparse in H. destruct H as [H1 H2].
  split; [done|]. split; [by rewrite H2, lookup_insert_eq|].
  split; [apply sort_index_Permutation|].
  rewrite Hlog, !elem_of_app, !list_elem_of_singleton. auto.
Qed.

Lemma update_stock_data_replaces_unparseable_file_witness :
  files Samples.w_bad !! csv_path "ZTEST" = Some Samples.bad_text
  ∧ obind (read_csv Samples.bad_text) parse_dates
    = Raised (Exc "Unknown datetime string format, unable to parse: not-a-date")
  ∧ normalized (history Samples.env_later "ZTEST" "2015-01-01"
                  (today Samples.env_later))
    = Returned (Some [Samples.row3'; Samples.row4])
  ∧ save_fault Samples.env_later = None
  ∧ (let run := update_stock_data Samples.env_later "ZTEST" "2015-01-01"
                  Samples.w_bad in
     run.1 = Returned (result "success"
                         ("Successfully updated data for " +:+ "ZTEST"))
     ∧ files run.2 !! csv_path "ZTEST"
       = Some (to_csv (sort_index [Samples.row3'; Samples.row4]))
     ∧ sort_index [Samples.row3'; Samples.row4]
       ≡ₚ [Samples.row3'; Samples.row4]
     ∧ ("Error processing existing data: "
        +:+ str (Exc "Unknown datetime string format, unable to parse: not-a-date"))
       ∈ stderr run.2).
Proof.
  split; [vm_compute; reflexivity|].
  split; [vm_compute; reflexivity|].
  split; [vm_compute; reflexivity|].
  split; [vm_compute; reflexivity|].
  apply (update_stock_data_replaces_unparseable_file Samples.env_later "ZTEST"
           "2015-01-01" Samples.w_bad Samples.bad_text
           (Exc "Unknown datetime string format, unable to parse: not-a-date")
           [Samples.row3'; Samples.row4]);
    vm_compute; reflexivity.
Defined.

End log_facts.

Section failure_facts.

Implicit Types (df old new : DataFrame) (r : Row) (d : Timestamp).

(** X10.  The first update of a symbol writes the whole fetch: with no
    file for the symbol, a successful update writes every fetched row,
    repeated dates included, sorted newest first. *)
Theorem first_update_writes_every_fetched_row env symbol start_date w new :
  files w !! csv_path symbol = None →
  normalized (history env symbol start_date (today env)) = Returned (Some new) →
  save_fault env = None →
  let run := update_stock_data env symbol start_date w in
  run.1 = Returned (result "success" ("Successfully updated data for " +:+ symbol))
  ∧ files run.2 !! csv_path symbol = Some (to_csv (sort_index new))
  ∧ sort_index new ≡ₚ new
  ∧ descending (sort_index new).
Proof.
  intros Hfile Hnorm Hsave run. subst run.
  pose proof (update_stock_data_run env symbol start_date w) as [_ H].
  simpl in H. rewrite Hnorm, Hsave, Hfile in H. destruct H as [H1 H2].
  split; [done|]. split; [by rewrite H2, lookup_insert_eq|].
  split; [apply sort_index_Permutation | apply sort_index_descending].
Qed.

Lemma first_update_writes_every_fetched_row_witness :
  files Samples.w_aapl !! csv_path "ZTEST" = None
  ∧ normalized (history Samples.env_first "ZTEST" "2015-01-01"
                  (today Samples.env_first))
    = Returned (Some [Samples.row1; Samples.row2; Samples.row3])
  ∧ save_fault Samples.env_first = None
  ∧ (let run := update_stock_data Samples.env_first "ZTEST" "2015-01-01"
                  Samples.w_aapl in
     run.1 = Returned (result "success"
                         ("Successfully updated data for " +:+ "ZTEST"))
     ∧ files run.2 !! csv_path "ZTEST"
       = Some (to_csv (sort_index [Samples.row1; Samples.row2; Samples.row3]))
     ∧ sort_index [Samples.row1; Samples.row2; Samples.row3]
       ≡ₚ [Samples.row1; Samples.row2; Samples.row3]
     ∧ descending (sort_index [Samples.row1; Samples.row2; Samples.row3])).
Proof.
  split; [vm_compute; reflexivity|].
  split; [vm_compute; reflexivity|].
  split; [vm_compute; reflexivity|].
  apply (first_update_writes_every_fetched_row Samples.env_first "ZTEST"
           "2015-01-01" Samples.w_aapl
           [Samples.row1; Samples.row2; Samples.row3]);
    vm_compute; reflexivity.
Defined.

(** X11.  A fetch that raises comes back through the tool as it is: for
    valid arguments, when the provider raises [e] the tool
    [update_stock_data_tool] returns the error result of
    [update_stock_data], whose message names the symbol and [e]; no file
    has changed, nothing was slept, and the message is the last line of
    the error stream. *)
Theorem provider_failure_reported env args symbol start_date e w :
  args !! "symbol" = Some (PStr symbol) →
  args !! "start_date" = Some (PStr start_date) →
  history env symbol start_date (today env) = Raised e →
  let msg := "Error updating data for " +:+ symbol +:+ ": " +:+ str e in
  let run := update_stock_data_tool env args w in
  run.1 = Returned (result "error" msg)
  ∧ files run.2 = files w
  ∧ slept run.2 = slept w
  ∧ last (stderr run.2) = Some msg.
Proof.
  intros Hsym Hstart Hhist msg run. subst msg run.
  rewrite update_stock_data_tool_run, Hsym, Hstart. cbv beta iota zeta.
  pose proof (update_stock_data_run env symbol start_date w) as [Hslept H].
  pose proof (update_stock_data_log env symbol start_date w) as Hlog.
  simpl in Hslept, H, Hlog. unfold normalized in H, Hlog.
  rewrite Hhist in H, Hlog. simpl in H, Hlog. destruct H as [H1 H2].
  destruct (update_stock_data env symbol start_date w) as [[d|e'] w'];
    cbn [fst snd] in *; [|done].
  injection H1 as ->. rewrite result_status.
  rewrite bool_decide_eq_true_2 by done. cbn [fst snd].
  split; [done|]. split; [done|]. split; [done|].
  rewrite Hlog. apply last_snoc.
Qed.

Lemma provider_failure_reported_witness :
  let env := mkEnv "2024-01-06" (λ _ _ _, Raised (Exc "Too Many Requests"))
               "tmpk3x9_q2a.csv" None None None in
  let args : gmap string PyVal :=
    {[ "symbol" := PStr "ZTEST"; "start_date" := PStr "2024-01-01" ]} in
  args !! "symbol" = Some (PStr "ZTEST")
  ∧ args !! "start_date" = Some (PStr "2024-01-01")
  ∧ history env "ZTEST" "2024-01-01" (today env) = Raised (Exc "Too Many Requests")
  ∧ (let msg := "Error updating data for " +:+ "ZTEST" +:+ ": "
                +:+ str (Exc "Too Many Requests") in
     let run := update_stock_data_tool env args Samples.w_ztest in
     run.1 = Returned (result "error" msg)
     ∧ files run.2 = files Samples.w_ztest
     ∧ slept run.2 = slept Samples.w_ztest
     ∧ last (stderr run.2) = Some msg).
Proof.
  intros env args.
  split; [vm_compute; reflexivity|].
  split; [vm_compute; reflexivity|].
  split; [vm_compute; reflexivity|].
  apply (provider_failure_reported env args "ZTEST" "2024-01-01"
           (Exc "Too Many Requests") Samples.w_ztest);
    vm_compute; reflexivity.
Defined.

(** X12.  A fetch that lacks one of the five columns is an error, not a
    partial save: when a non-empty fetch has no column whose capitalized
    label is [c], for [c] one of Open, High, Low, Close and Volume, the
    update returns an error result naming the symbol and leaves every file
    as it was. *)
Theorem update_stock_data_missing_column env symbol start_date w fetched c :
  history env symbol start_date (today env) = Returned fetched →
  empty fetched = false →
  c ∈ keep_columns →
  c ∉ map capitalize (fetched_columns fetched) →
  let run := update_stock_data env symbol start_date w in
  (∃ detail,
     run.1 = Returned (result "error"
               ("Error updating data for " +:+ symbol +:+ ": " +:+ detail)))
  ∧ files run.2 = files w.
Proof.
  intros Hhist Hempty Hc Hmissing run. subst run.
  pose proof (update_stock_data_run env symbol start_date w) as [_ H].
  simpl in H. unfold normalized in H. rewrite Hhist in H. cbn [obind] in H.
  rewrite Hempty in H. unfold select_keep_columns in H.
  cbn [capitalize_columns fetched_columns] in H.
  destruct (filter (λ c0, c0 ∉ map capitalize (fetched_columns fetched))
              keep_columns) as [|c0 missing] eqn:E.
  - assert (c ∈ filter (λ c0, c0 ∉ map capitalize (fetched_columns fetched))
                keep_columns) as Hin by by apply list_elem_of_filter.
    rewrite E in Hin. by apply elem_of_nil in Hin.
  - cbn [obind] in H. destruct H as [H1 H2]. split; [|done].
    eexists. exact H1.
Qed.

Lemma update_stock_data_missing_column_witness :
  let fetched :=
    mkFetched ["open"; "high"; "low"; "close"]
      [(Samples.D1, ["10.0"; "11.0"; "9.5"; "10.5"])] in
  let env := Samples.env_with fetched None None in
  history env "ZTEST" "2015-01-01" (today env) = Returned fetched
  ∧ empty fetched = false
  ∧ "Volume" ∈ keep_columns
  ∧ ("Volume" ∉ map capitalize (fetched_columns fetched))
  ∧ (let run := update_stock_data env "ZTEST" "2015-01-01" Samples.w_ztest in
     (∃ detail,
        run.1 = Returned (result "error"
                  ("Error updating data for " +:+ "ZTEST" +:+ ": " +:+ detail)))
     ∧ files run.2 = files Samples.w_ztest).
Proof.
  intros fetched env.
  assert ("Volume" ∈ keep_columns) as Hc
    by (apply (bool_decide_unpack _); vm_compute; reflexivity).
  assert ("Volume" ∉ map capitalize (fetched_columns fetched)) as Hmissing
    by (apply (bool_decide_unpack _); vm_compute; reflexivity).
  split; [vm_compute; reflexivity|].
  split; [vm_compute; reflexivity|].
  split; [exact Hc|].
  split; [exact Hmissing|].
  apply (update_stock_data_missing_column env "ZTEST" "2015-01-01"
           Samples.w_ztest fetched "Volume");
    try exact Hc; try exact Hmissing; vm_compute; reflexivity.
Defined.

(** X13.  A write that fails is reported, not raised: when the fetch is
    usable and a library call of the save raises [e], the update returns
    the error result with message "Error saving data: " followed by [e],
    the last line of the error stream is "Error saving CSV file: "
    followed by [e], and with the temporary name a new entry every file is
    as it was. *)
Theorem update_stock_data_save_failure env symbol start_date w new e :
  normalized (history env symbol start_date (today env)) = Returned (Some new) →
  save_fault env = Some e →
  files w !! temp_name env = None →
  let run := update_stock_data env symbol start_date w in
  run.1 = Returned (result "error" ("Error saving data: " +:+ str e))
  ∧ files run.2 = files w
  ∧ last (stderr run.2) = Some ("Error saving CSV file: " +:+ str e).
Proof.
  intros Hnorm Hsave Hfresh run. subst run.
  pose proof (update_stock_data_run env symbol start_date w) as [_ H].
  pose proof (update_stock_data_log env symbol start_date w) as Hlog.
  simpl in H, Hlog. rewrite Hnorm, Hsave in H, Hlog. destruct H as [H1 H2].
  split; [done|]. split.
  - rewrite H2. destruct (temp_create env); [done | by apply delete_id].
  - rewrite Hlog. apply last_snoc.
Qed.

Lemma update_stock_data_save_failure_witness :
  normalized (history Samples.env_disk_full "ZTEST" "2015-01-01"
                (today Samples.env_disk_full))
    = Returned (Some [Samples.row3'; Samples.row4])
  ∧ save_fault Samples.env_disk_full
    = Some (Exc "[Errno 28] No space left on device")
  ∧ files Samples.w_ztest !! temp_name Samples.env_disk_full = None
  ∧ (let run := update_stock_data Samples.env_disk_full "ZTEST" "2015-01-01"
                  Samples.w_ztest in
     run.1 = Returned (result "error"
               ("Error saving data: "
                +:+ str (Exc "[Errno 28] No space left on device")))
     ∧ files run.2 = files Samples.w_ztest
     ∧ last (stderr run.2)
       = Some ("Error saving CSV file: "
               +:+ str (Exc "[Errno 28] No space left on device"))).
Proof.
  split; [vm_compute; reflexivity|].
  split; [vm_compute; reflexivity|].
  split; [vm_compute; reflexivity|].
  apply (update_stock_data_save_failure Samples.env_disk_full "ZTEST"
           "2015-01-01" Samples.w_ztest [Samples.row3'; Samples.row4]
           (Exc "[Errno 28] No space left on device"));
    vm_compute; reflexivity.
Defined.

(** X14.  The tool adds nothing but the wait: for valid arguments
    [update_stock_data_tool] returns the result of [update_stock_data] and
    leaves the files and the error stream that [update_stock_data]
    leaves. *)
Theorem update_stock_data_tool_as_function env args symbol start_date w :
  args !! "symbol" = Some (PStr symbol) →
  args !! "start_date" = Some (PStr start_date) →
  (update_stock_data_tool env args w).1
  = (update_stock_data env symbol start_date w).1
  ∧ files (update_stock_data_tool env args w).2
    = files (update_stock_data env symbol start_date w).2
  ∧ stderr (update_stock_data_tool env args w).2
    = stderr (update_stock_data env symbol start_date w).2.
Proof.
  intros Hsym Hstart. rewrite update_stock_data_tool_run, Hsym, Hstart.
  cbv beta iota zeta.
  destruct (update_stock_data_returns env symbol start_date w)
    as (status & message & _ & Hrun).
  destruct (update_stock_data env symbol start_date w) as [[d|e] w'];
    simpl in Hrun; [|done].
  simpl. by destruct (bool_decide _).
Qed.

Lemma update_stock_data_tool_as_function_witness :
  let args : gmap string PyVal :=
    {[ "symbol" := PStr "ZTEST"; "start_date" := PStr "2024-01-01" ]} in
  args !! "symbol" = Some (PStr "ZTEST")
  ∧ args !! "start_date" = Some (PStr "2024-01-01")
  ∧ (update_stock_data_tool Samples.env_later args Samples.w_ztest).1
    = (update_stock_data Samples.env_later "ZTEST" "2024-01-01" Samples.w_ztest).1
  ∧ files (update_stock_data_tool Samples.env_later args Samples.w_ztest).2
    = files (update_stock_data Samples.env_later "ZTEST" "2024-01-01"
               Samples.w_ztest).2
  ∧ stderr (update_stock_data_tool Samples.env_later args Samples.w_ztest).2
    = stderr (update_stock_data Samples.env_later "ZTEST" "2024-01-01"
                Samples.w_ztest).2.
Proof.
  intros args.
  split; [vm_compute; reflexivity|].
  split; [vm_compute; reflexivity|].
  apply (update_stock_data_tool_as_function Samples.env_later args "ZTEST"
           "2024-01-01" Samples.w_ztest);
    vm_compute; reflexivity.
Defined.

End failure_facts.

(** ** Dropping repeated dates, and what a merge keeps *)

Section keep_facts.

Implicit Types (df old new : DataFrame) (r : Row) (d : Timestamp).

Lemma drop_duplicated_NoDup df : NoDup (index df) → drop_duplicated df = df.
Proof.
  induction df as [|r df IH]; [done|]. simpl.
  rewrite NoDup_cons. intros [Hnotin Hnd].
  rewrite drop_duplicated_cons, bool_decide_eq_false_2 by done.
  by rewrite IH.
Qed.

(** X15.  [df[~df.index.duplicated(keep='last')]] only leaves rows out:
    what is left is a sublist of the frame (the rows kept stand in the
    order they had), it is the frame itself when no date repeats, and
    dropping again drops nothing more. *)
Theorem drop_duplicated_keeps_order df :
  drop_duplicated df `sublist_of` df
  ∧ (NoDup (index df) → drop_duplicated df = df)
  ∧ drop_duplicated (drop_duplicated df) = drop_duplicated df.
Proof.
  split; [|split].
  - induction df as [|r df IH]; [done|].
    rewrite drop_duplicated_cons. case_bool_decide as Hin.
    + by apply sublist_cons.
    + by apply sublist_skip.
  - apply drop_duplicated_NoDup.
  - apply drop_duplicated_NoDup, NoDup_index_drop_duplicated.
Qed.

(** X16.  A merge keeps the history it did not fetch and invents nothing:
    a row of a prior series without repeated dates whose date is not among
    the fetched dates is in the merged series as it was, and every row of
    the merged series is a row of the prior series or of the fetch. *)
Theorem merge_keeps_unfetched_rows old new r :
  NoDup (index old) →
  r ∈ old →
  Date r ∉ index new →
  r ∈ merge (Some old) new
  ∧ (∀ r', r' ∈ merge (Some old) new → r' ∈ old ∨ r' ∈ new).
Proof.
  intros Hnd Hr Hnotin. split.
  - rewrite elem_of_merge_Some, last_with_date_app.
    apply last_with_date_None in Hnotin. rewrite Hnotin.
    by apply last_with_date_unique.
  - intros r'. rewrite elem_of_merge_Some.
    intros [_ Hin]%last_with_date_Some. by apply elem_of_app in Hin.
Qed.

Lemma merge_keeps_unfetched_rows_witness :
  NoDup (index [Samples.row3; Samples.row2; Samples.row1])
  ∧ Samples.row2 ∈ [Samples.row3; Samples.row2; Samples.row1]
  ∧ (Date Samples.row2 ∉ index [Samples.row3'; Samples.row4])
  ∧ Samples.row2
    ∈ merge (Some [Samples.row3; Samples.row2; Samples.row1])
        [Samples.row3'; Samples.row4]
  ∧ (∀ r', r' ∈ merge (Some [Samples.row3; Samples.row2; Samples.row1])
                  [Samples.row3'; Samples.row4] →
           r' ∈ [Samples.row3; Samples.row2; Samples.row1]
           ∨ r' ∈ [Samples.row3'; Samples.row4]).
Proof.
  assert (NoDup (index [Samples.row3; Samples.row2; Samples.row1])) as Hnd
    by (apply (bool_decide_unpack _); vm_compute; reflexivity).
  assert (Samples.row2 ∈ [Samples.row3; Samples.row2; Samples.row1]) as Hr
    by (apply (bool_decide_unpack _); vm_compute; reflexivity).
  assert (Date Samples.row2 ∉ index [Samples.row3'; Samples.row4]) as Hnotin
    by (apply (bool_decide_unpack _); vm_compute; reflexivity).
  split; [exact Hnd|]. split; [exact Hr|]. split; [exact Hnotin|].
  apply (merge_keeps_unfetched_rows [Samples.row3; Samples.row2; Samples.row1]
           [Samples.row3'; Samples.row4] Samples.row2 Hnd Hr Hnotin).
Defined.

End keep_facts.

(** ** Two updates in a row *)

Section compose_facts.

Implicit Types (df old new : DataFrame) (r : Row) (d : Timestamp).

(** X17.  Two merges in a row are one merge of the two fetches, the
    earlier first: merging [new2] into the merge of [new1] into a prior
    series gives the series that merging [new1] followed by [new2] into
    the prior series gives. *)
Theorem merge_in_two_steps old new1 new2 :
  merge (Some (merge (Some old) new1)) new2
  = merge (Some old) (new1 ++ new2).
Proof.
  apply descending_unique;
    [apply merge_descending | apply merge_descending
    | apply NoDup_index_merge_Some | apply NoDup_index_merge_Some |].
  intros r. rewrite !elem_of_merge_Some.
  rewrite (assoc_L (++)), !(last_with_date_app _ _ new2).
  destruct (last_with_date (Date r) new2) as [r'|]; [done|].
  rewrite last_with_date_unique by apply NoDup_index_merge_Some.
  apply elem_of_merge_Some.
Qed.

End compose_facts.
